(** * FlaskSetup: a shallow embedding of [app.py]

    The portfolio application of [app.py] is a set of Flask request
    handlers over three SQLAlchemy tables, with Flask-Login sessions and
    Werkzeug password hashes.  Every handler is embedded as a function from
    the store, the session and the request to the new store, the new
    session, the flashed messages and the response.

    Layout: the library layer the handlers call ([hashlib], [hmac],
    [werkzeug.security], Flask-Login, the SQLAlchemy session), the data
    model, the handlers, and then the properties. *)

From Stdlib Require Import NArith ZArith Ascii String DecimalString DecimalN.
From stdpp Require Import gmap strings list.

Local Open Scope string_scope.

(* ===================================================================== *)
(** * Python values *)
(* ===================================================================== *)

(** A Python [bytes] value.  A Python [str] is represented by the
    [string] of its UTF-8 bytes, so that [s.encode("utf-8")] is
    [list_ascii_of_string s]. *)
Abbreviation bytes := (list ascii).

(** The exceptions the handlers can let escape; Flask answers an escaped
    exception with a 500 page. *)
Inductive Exception :=
| AttributeError         (* attribute access on an object that lacks it *)
| ValueError
| IntegrityError         (* sqlalchemy.exc.IntegrityError *)
| UnmappedInstanceError. (* sqlalchemy.orm.exc.UnmappedInstanceError *)

(** A computation that returns or raises: [inr v] is [return v], [inl e]
    is [raise e]; [x ← m; k] runs [k] unless [m] raised. *)
#[global] Instance raises_ret : MRet (sum Exception) := fun _ v => inr v.
#[global] Instance raises_bind : MBind (sum Exception) := fun _ _ k m =>
  match m with
  | inl e => inl e
  | inr v => k v
  end.
#[global] Instance raises_fmap : FMap (sum Exception) := fun _ _ f m =>
  match m with
  | inl e => inl e
  | inr v => inr (f v)
  end.

(** [str.count(c)] for a one-character needle. *)
Fixpoint str_count (c : ascii) (s : string) : nat :=
  match s with
  | EmptyString => 0
  | String a s' => (if Ascii.eqb a c then 1 else 0) + str_count c s'
  end.

(** [s.split(sep, maxsplit)] for a one-character separator. *)
Fixpoint str_split (sep : ascii) (maxsplit : nat) (s : string) : list string :=
  match s with
  | EmptyString => [EmptyString]
  | String a s' =>
      if Ascii.eqb a sep then
        match maxsplit with
        | O => [s]
        | S n => EmptyString :: str_split sep n s'
        end
      else
        match str_split sep maxsplit s' with
        | h :: t => String a h :: t
        | [] => [String a EmptyString]
        end
  end.

(** The string of the one character U+0000. *)
Definition NUL : string := String zero EmptyString.

(** Every character of [s] is one of [alphabet]. *)
Definition all_in (alphabet s : string) : bool :=
  forallb (fun c => existsb (Ascii.eqb c) (list_ascii_of_string alphabet))
    (list_ascii_of_string s).

(** [s.startswith(p)]. *)
Definition startswith (p s : string) : bool := String.prefix p s.

(** [s[n:]]. *)
Definition str_from (n : nat) (s : string) : string :=
  String.substring n (String.length s - n) s.

(** [str(n)] and ["%d" % n] for a natural number. *)
Definition str_of_N (n : N) : string := NilZero.string_of_uint (N.to_uint n).

(** [int(s or 0)] on a string of decimal digits; any other spelling is a
    [ValueError]. *)
Definition int_or_0 (s : string) : Exception + N :=
  match NilEmpty.uint_of_string s with
  | Some d => inr (N.of_uint d)
  | None => inl ValueError
  end.

(** [int.from_bytes(b)] and [n.to_bytes(len)], big-endian. *)
Definition from_bytes (b : bytes) : N :=
  fold_left (fun acc a => (acc * 256 + N_of_ascii a)%N) b 0%N.

Fixpoint to_bytes (len : nat) (n : N) : bytes :=
  match len with
  | O => []
  | S l => to_bytes l (n / 256)%N ++ [ascii_of_N (n mod 256)%N]
  end.

(** [bytes.hex()]. *)
Definition hex_digit (n : N) : ascii :=
  nth (N.to_nat n) (list_ascii_of_string "0123456789abcdef") "0"%char.

Definition hex_byte (a : ascii) : list ascii :=
  [hex_digit (N_of_ascii a / 16)%N; hex_digit (N_of_ascii a mod 16)%N].

Definition hex (b : bytes) : string :=
  string_of_list_ascii (concat (map hex_byte b)).

(** [bytes.fromhex] on the two digits of one byte. *)
Definition unhex_digit (c : ascii) : N :=
  let n := N_of_ascii c in
  if (n <? 58)%N then (n - 48)%N else (n - 87)%N.

Definition unhex_byte (digits : list ascii) : ascii :=
  match digits with
  | [h; l] => ascii_of_N (16 * unhex_digit h + unhex_digit l)%N
  | _ => zero
  end.

(* ===================================================================== *)
(** * hashlib: SHA-256 and PBKDF2-HMAC *)
(* ===================================================================== *)

Module hashlib.

Local Open Scope N_scope.

Definition add32 (a b : N) : N := (a + b) mod 2 ^ 32.
Definition rotr (n x : N) : N :=
  N.lor (N.shiftr x n) (N.shiftl x (32 - n) mod 2 ^ 32).
Definition not32 (x : N) : N := N.lxor x 0xffffffff.

(** [seq_N a n] is [a; a+1; ...], [n] numbers. *)
Definition seq_N (a n : N) : list N := map N.of_nat (seq (N.to_nat a) (N.to_nat n)).

Definition Ch (x y z : N) : N := N.lxor (N.land x y) (N.land (not32 x) z).
Definition Maj (x y z : N) : N :=
  N.lxor (N.land x y) (N.lxor (N.land x z) (N.land y z)).
Definition Sigma0 (x : N) : N := N.lxor (rotr 2 x) (N.lxor (rotr 13 x) (rotr 22 x)).
Definition Sigma1 (x : N) : N := N.lxor (rotr 6 x) (N.lxor (rotr 11 x) (rotr 25 x)).
Definition sigma0 (x : N) : N := N.lxor (rotr 7 x) (N.lxor (rotr 18 x) (N.shiftr x 3)).
Definition sigma1 (x : N) : N := N.lxor (rotr 17 x) (N.lxor (rotr 19 x) (N.shiftr x 10)).

(** The constants of SHA-256 are the first 32 bits of the fractional parts
    of the cube roots, respectively the square roots, of the first primes:
    the integer root of [p * 2^96], respectively [p * 2^64], modulo 2^32. *)
Definition primes : list N :=
  filter (fun p => forallb (fun d => negb (p mod d =? 0)) (seq_N 2 (p - 2)))
    (seq_N 2 310).

Fixpoint cbrt_bits (k : nat) (n r : N) : N :=
  match k with
  | O => r
  | S k' =>
      let r' := r + 2 ^ N.of_nat k' in
      if r' * r' * r' <=? n then cbrt_bits k' n r' else cbrt_bits k' n r
  end.

Definition cbrt (n : N) : N := cbrt_bits 48 n 0.

Definition K256 : list N :=
  Eval vm_compute in map (fun p => cbrt (p * 2 ^ 96) mod 2 ^ 32) primes.

Definition H256 : list N :=
  Eval vm_compute in map (fun p => N.sqrt (p * 2 ^ 64) mod 2 ^ 32) (take 8 primes).

(** The sixteen big-endian words of a 64-byte block. *)
Fixpoint words (n : nat) (b : bytes) : list N :=
  match n with
  | O => []
  | S n' => from_bytes (take 4 b) :: words n' (drop 4 b)
  end.

(** Message schedule: [w] holds W_0 .. W_(t-1) and is extended [n] times. *)
Fixpoint schedule (n : nat) (w : list N) : list N :=
  match n with
  | O => w
  | S n' =>
      let t := length w in
      let x := add32 (add32 (sigma1 (nth (t - 2) w 0)) (nth (t - 7) w 0))
                     (add32 (sigma0 (nth (t - 15) w 0)) (nth (t - 16) w 0)) in
      schedule n' (w ++ [x])
  end.

Definition round (s : list N) (kw : N * N) : list N :=
  match s with
  | [a; b; c; d; e; f; g; h] =>
      let t1 := add32 (add32 (add32 h (Sigma1 e)) (add32 (Ch e f g) kw.1)) kw.2 in
      let t2 := add32 (Sigma0 a) (Maj a b c) in
      [add32 t1 t2; a; b; c; add32 d t1; e; f; g]
  | _ => s
  end.

Definition compress (h : list N) (block : bytes) : list N :=
  let w := schedule 48 (words 16 block) in
  zip_with add32 h (fold_left round (zip K256 w) h).

Fixpoint blocks (fuel : nat) (m : bytes) : list bytes :=
  match fuel, m with
  | S fuel', _ :: _ => take 64 m :: blocks fuel' (drop 64 m)
  | _, _ => []
  end.

Definition pad (m : bytes) : bytes :=
  let len := length m in
  m ++ [ascii_of_N 0x80]
    ++ repeat zero ((119 - len mod 64) mod 64)%nat
    ++ to_bytes 8 (8 * N.of_nat len).

Definition sha256 (m : bytes) : bytes :=
  let p := pad m in
  concat (map (to_bytes 4) (fold_left compress (blocks (length p) p) H256)).

(** The key block of HMAC, as [pbkdf2_hmac] (and [hmac.HMAC]) builds it: a
    key longer than the 64-byte block is hashed first, and the key is then
    filled up to the block size with zero bytes. *)
Definition key_block (password : bytes) : bytes :=
  let password :=
    if (64 <? length password)%nat then sha256 password else password in
  password ++ repeat zero (64 - length password)%nat.

Definition translate (k : N) (b : bytes) : bytes :=
  map (fun a => ascii_of_N (N.lxor (N_of_ascii a) k)) b.

(** [prf] of [pbkdf2_hmac]: HMAC-SHA256 of [msg] under the key block. *)
Definition prf (key : bytes) (msg : bytes) : bytes :=
  sha256 (translate 0x5c key ++ sha256 (translate 0x36 key ++ msg)).

(** The loops of [pbkdf2_hmac] for a derived key of one digest: the outer
    loop runs once, with [loop = 1], and the inner one folds the
    [iterations - 1] further applications of [prf] into [rkey]. *)
Definition derive (key salt : bytes) (iterations : N) : bytes :=
  let prev := prf key (salt ++ to_bytes 4 1) in
  let step (st : bytes * N) :=
    let prev := prf key st.1 in (prev, N.lxor st.2 (from_bytes prev)) in
  let rkey := (N.iter (iterations - 1) step (prev, from_bytes prev)).2 in
  take 32 (to_bytes 32 rkey).

(** [hashlib.pbkdf2_hmac("sha256", password, salt, iterations)] with
    [dklen=None]. *)
Definition pbkdf2_hmac (password salt : bytes) (iterations : N)
  : Exception + bytes :=
  let key := key_block password in
  if iterations <? 1 then inl ValueError
  else inr (derive key salt iterations).

(** [hmac.new(key, msg, "sha256").digest()]. *)
Definition hmac_digest (key msg : bytes) : bytes := prf (key_block key) msg.

End hashlib.

(* ===================================================================== *)
(** * werkzeug.security *)
(* ===================================================================== *)

(** The two functions of [werkzeug.security] that [register] and [login]
    call, with the helpers they go through, after Werkzeug 1.0. *)

(** The default iteration count of Werkzeug's PBKDF2, a positive constant
    that differs between releases of the library (150000, 260000,
    600000, ...). *)
Class Werkzeug := { DEFAULT_PBKDF2_ITERATIONS : positive }.

Module security.

Definition SALT_CHARS : string :=
  "abcdefghijklmnopqrstuvwxyzABCDEFGHIJKLMNOPQRSTUVWXYZ0123456789".

(** [gen_salt(length)] draws [length] characters of [SALT_CHARS] from the
    system's random source and raises [ValueError] when [length <= 0].
    The draw is an argument of the functions below; [is_gen_salt length s]
    says that [s] is a possible result of [gen_salt(length)]. *)
Definition is_gen_salt (length : nat) (salt : string) : bool :=
  (0 <? length)%nat && (String.length salt =? length)%nat
  && all_in SALT_CHARS salt.

(** [hashlib.pbkdf2_hmac(name, ...)], [hmac.new(.., name)] and
    [hashlib.new(name, ..)]: of hashlib's algorithms only sha256, the one
    [app.py] asks for, is embedded; every other name is answered the way
    hashlib answers a name it does not know, with [ValueError]. *)
Definition pbkdf2_hex (name : string) (data salt : bytes) (iterations : N)
  : Exception + string :=
  if String.eqb name "sha256"
  then hex <$> hashlib.pbkdf2_hmac data salt iterations
  else inl ValueError.

Definition hmac_hexdigest (name : string) (key msg : bytes) : Exception + string :=
  if String.eqb name "sha256" then inr (hex (hashlib.hmac_digest key msg))
  else inl ValueError.

Definition hexdigest (name : string) (msg : bytes) : Exception + string :=
  if String.eqb name "sha256" then inr (hex (hashlib.sha256 msg))
  else inl ValueError.

(** [_hash_internal(method, salt, password)]: the hash and the method
    actually used. *)
Definition _hash_internal `{Werkzeug} (method salt password : string)
  : Exception + (string * string) :=
  if String.eqb method "plain" then inr (password, method)
  else
    let password := list_ascii_of_string password in
    if startswith "pbkdf2:" method then
      '(name, iterations) ←
        match str_split ":" (String.length method) (str_from 7 method) with
        | [name] => inr (name, N.pos DEFAULT_PBKDF2_ITERATIONS)
        | [name; count] =>
            n ← int_or_0 count;
            mret (name, if (n =? 0)%N then N.pos DEFAULT_PBKDF2_ITERATIONS else n)
        | _ => inl ValueError
        end;
      let actual_method := "pbkdf2:" ++ name ++ ":" ++ str_of_N iterations in
      if String.eqb salt EmptyString then inl ValueError
      else
        rv ← pbkdf2_hex name password (list_ascii_of_string salt) iterations;
        mret (rv, actual_method)
    else if String.eqb salt EmptyString then
      rv ← hexdigest method password; mret (rv, method)
    else
      rv ← hmac_hexdigest method (list_ascii_of_string salt) password;
      mret (rv, method).

(** [generate_password_hash(password, method, salt_length)], with [salt]
    the outcome of [gen_salt(salt_length)]. *)
Definition generate_password_hash `{Werkzeug} (password method salt : string)
  : Exception + string :=
  let salt := if String.eqb method "plain" then EmptyString else salt in
  '(h, actual_method) ← _hash_internal method salt password;
  mret (actual_method ++ "$" ++ salt ++ "$" ++ h).

(** [check_password_hash(pwhash, password)]; the final comparison is a
    constant-time equality test of the two hashes. *)
Definition check_password_hash `{Werkzeug} (pwhash password : string)
  : Exception + bool :=
  if (str_count "$" pwhash <? 2)%nat then inr false
  else
    match str_split "$" 2 pwhash with
    | [method; salt; hashval] =>
        '(h, _) ← _hash_internal method salt password;
        mret (String.eqb h hashval)
    | _ => inl ValueError
    end.

End security.

(** The key that [generate_password_hash] with method ["pbkdf2:sha256"]
    derives from a password under a salt, and the method string it
    records in the hash. *)
Definition derived_key `{Werkzeug} (salt password : string) : bytes :=
  hashlib.derive (hashlib.key_block (list_ascii_of_string password))
    (list_ascii_of_string salt) (N.pos DEFAULT_PBKDF2_ITERATIONS).

Definition actual_method `{Werkzeug} : string :=
  "pbkdf2:sha256:" ++ str_of_N (N.pos DEFAULT_PBKDF2_ITERATIONS).

(** Werkzeug 1.0, with its 150000 iterations. *)
Definition werkzeug_1_0 : Werkzeug := {| DEFAULT_PBKDF2_ITERATIONS := 150000 |}.

(** Werkzeug with a single PBKDF2 iteration, small enough to run the whole
    derivation. *)
Definition one_iteration : Werkzeug := {| DEFAULT_PBKDF2_ITERATIONS := 1 |}.

(* ===================================================================== *)
(** * The data model: [User], [Project], [Comment] *)
(* ===================================================================== *)

(** The primary key [id] of a row is its key in the table; a nullable
    foreign key is an [option].  The length bounds of the [String(n)]
    columns are left to the database backend (SQLite ignores them) and are
    not part of the model. *)

Local Open Scope Z_scope.

Module User.
Record t := mk { email : string; password : string; name : string }.
End User.

Module Project.
Record t := mk {
  author_id : option Z;
  title : string;
  subtitle : string;
  date : string;
  body : string;
  img_url : string }.
End Project.

Module Comment.
Record t := mk {
  project_id : option Z;
  author_id : option Z;
  text : string }.
End Comment.

(** The three tables behind [db]. *)
Record Database := mkDatabase {
  users : gmap Z User.t;
  projects : gmap Z Project.t;
  comments : gmap Z Comment.t }.

(** An autoincrement primary key: one past the largest key in use. *)
Definition next_id {A} (table : gmap Z A) : Z :=
  1 + foldr Z.max 0 (map_to_list table).*1.

(** [User.query.get(id)] and [Project.query.get(id)]: the row, or [None]. *)
Definition User_query_get (db : Database) (id : Z) : option (Z * User.t) :=
  pair id <$> users db !! id.

Definition Project_query_get (db : Database) (id : Z) : option (Z * Project.t) :=
  pair id <$> projects db !! id.

(** [Project.query.all()]. *)
Definition Project_query_all (db : Database) : list (Z * Project.t) :=
  map_to_list (projects db).

(** [User.query.filter_by(email=email).first()]; with [unique=True] on
    the column at most one row matches. *)
Definition User_query_filter_by_email_first (db : Database) (email : string)
  : option (Z * User.t) :=
  find (fun r => String.eqb (User.email r.2) email) (map_to_list (users db)).

(** [db.session.add(new_user); db.session.commit()]: the INSERT fails on
    the [unique=True] of [User.email]. *)
Definition add_user (db : Database) (new_user : User.t) : Exception + (Z * Database) :=
  if existsb (fun r => String.eqb (User.email r.2) (User.email new_user))
       (map_to_list (users db))
  then inl IntegrityError
  else
    let id := next_id (users db) in
    inr (id, mkDatabase (<[id := new_user]> (users db)) (projects db) (comments db)).

(** [db.session.add(new_project); db.session.commit()]: the INSERT fails
    on the [unique=True] of [Project.title]. *)
Definition add_project (db : Database) (new_project : Project.t)
  : Exception + (Z * Database) :=
  if existsb (fun r => String.eqb (Project.title r.2) (Project.title new_project))
       (map_to_list (projects db))
  then inl IntegrityError
  else
    let id := next_id (projects db) in
    inr (id, mkDatabase (users db) (<[id := new_project]> (projects db)) (comments db)).

(** [db.session.add(new_comment); db.session.commit()]: the comments table
    has no uniqueness constraint and both foreign keys are nullable. *)
Definition add_comment (db : Database) (new_comment : Comment.t) : Z * Database :=
  let id := next_id (comments db) in
  (id, mkDatabase (users db) (projects db) (<[id := new_comment]> (comments db))).

(** [db.session.commit()] after the attributes of project [id] were
    assigned: the UPDATE fails when another row holds the new title. *)
Definition update_project (db : Database) (id : Z) (project : Project.t)
  : Exception + Database :=
  if existsb (fun r => negb (r.1 =? id)
                       && String.eqb (Project.title r.2) (Project.title project))
       (map_to_list (projects db))
  then inl IntegrityError
  else inr (mkDatabase (users db) (<[id := project]> (projects db)) (comments db)).

(** [db.session.delete(project); db.session.commit()]: the relationship
    [Project.comments] has no delete cascade, so the session first sets the
    [project_id] of the project's comments to NULL. *)
Definition orphan (id : Z) (c : Comment.t) : Comment.t :=
  if bool_decide (Comment.project_id c = Some id)
  then Comment.mk None (Comment.author_id c) (Comment.text c)
  else c.

Definition delete_project_row (db : Database) (id : Z) : Database :=
  mkDatabase (users db) (delete id (projects db)) (orphan id <$> comments db).

(* ===================================================================== *)
(** * Flask-Login *)
(* ===================================================================== *)

(** The session cookie: the ["_user_id"] entry that [login_user] writes,
    or no entry. *)
Definition Session := option Z.

(** [current_user]: the anonymous user object of Flask-Login, or the row
    that [load_user] found for the session's user id. *)
Inductive CurrentUser :=
| AnonymousUserMixin
| user (id : Z) (row : User.t).

(** [load_user(user_id)]. *)
Definition load_user (db : Database) (user_id : Z) : option (Z * User.t) :=
  User_query_get db user_id.

(** A session without a user id, or with the id of a row that is gone,
    gives the anonymous user. *)
Definition current_user (db : Database) (session : Session) : CurrentUser :=
  match session with
  | None => AnonymousUserMixin
  | Some user_id =>
      match load_user db user_id with
      | Some (id, row) => user id row
      | None => AnonymousUserMixin
      end
  end.

(** [current_user.is_authenticated]. *)
Definition is_authenticated (u : CurrentUser) : bool :=
  match u with
  | AnonymousUserMixin => false
  | user _ _ => true
  end.

(** [current_user.id]: [AnonymousUserMixin] defines [is_authenticated],
    [is_active], [is_anonymous] and [get_id], and no attribute [id]. *)
Definition id_of (u : CurrentUser) : Exception + Z :=
  match u with
  | AnonymousUserMixin => inl AttributeError
  | user id _ => inr id
  end.

Definition login_user (id : Z) : Session := Some id.
Definition logout_user : Session := None.

(* ===================================================================== *)
(** * Forms, requests and responses *)
(* ===================================================================== *)

Module RegisterForm.
Record t := mk { email : string; password : string; name : string }.
End RegisterForm.

Module LoginForm.
Record t := mk { email : string; password : string }.
End LoginForm.

Module CommentForm.
Record t := mk { comment_text : string }.
End CommentForm.

Module CreateProjectForm.
Record t := mk {
  title : string;
  subtitle : string;
  img_url : string;
  body : string }.
End CreateProjectForm.

(** [form.validate()].  The module [forms.py], which declares the four
    form classes and the validators of their fields, is not among the
    sources, so the decision is a parameter of the handlers: any function
    of the submitted data, which may consult the store. *)
Class FlaskForm (F : Type) := validate : Database -> F -> bool.

Inductive Method := GET | POST.

(** A request to a form route: its method, and the data of the fields of
    the form object that the handler builds from it. *)
Record Request (F : Type) := mkRequest { http_method : Method; form : F }.
Arguments mkRequest {F} _ _.
Arguments http_method {F} _.
Arguments form {F} _.

(** [form.validate_on_submit()]: the request is a submission and the form
    validates. *)
Definition is_submitted {F} (request : Request F) : bool :=
  match http_method request with
  | POST => true
  | GET => false
  end.

Definition validate_on_submit `{FlaskForm F} (db : Database) (request : Request F)
  : bool :=
  is_submitted request && validate db (form request).

(** [url_for(endpoint, ...)]. *)
Inductive Url :=
| url_for_login
| url_for_get_all_projects
| url_for_show_project (project_id : Z).

(** The keyword arguments of [render_template]. *)
Inductive FormObject :=
| register_form (f : RegisterForm.t)
| login_form (f : LoginForm.t)
| comment_form (f : CommentForm.t)
| project_form (f : CreateProjectForm.t).

Inductive Argument :=
| arg_all_projects (rows : list (Z * Project.t))
| arg_project (row : option (Z * Project.t))
| arg_form (f : FormObject)
| arg_is_edit (b : bool)
| arg_current_user (u : CurrentUser).

(** What a handler answers with: the call of [render_template] it
    returns, a redirect, [abort(status)], or an exception it lets escape. *)
Inductive Response :=
| render_template (template : string) (context : list Argument)
| redirect (location : Url)
| abort (status : Z)
| raise (e : Exception).

(** The outcome of a request: the store and the session it leaves, the
    messages it flashed and its response. *)
Record Result := mkResult {
  db_after : Database;
  session_after : Session;
  flashed : list string;
  response : Response }.

(* ===================================================================== *)
(** * The handlers of [app.py] *)
(* ===================================================================== *)

Definition Handler := Database -> Session -> Result.

(** [admin_only(f)]. *)
Definition admin_only (f : Handler) : Handler := fun db session =>
  match id_of (current_user db session) with
  | inl e => mkResult db session [] (raise e)
  | inr id =>
      if bool_decide (id ≠ 1) then mkResult db session [] (abort 403)
      else f db session
  end.

(** [GET /]. *)
Definition get_all_projects : Handler := fun db session =>
  let projects := Project_query_all db in
  mkResult db session []
    (render_template "index.html"
       [arg_all_projects projects; arg_current_user (current_user db session)]).

(** [/register]; [salt] is the draw of [gen_salt(8)].  The [print] of the
    duplicate branch writes to the server log only. *)
Definition register `{Werkzeug} `{FlaskForm RegisterForm.t}
    (salt : string) (request : Request RegisterForm.t) : Handler := fun db session =>
  let form := form request in
  if validate_on_submit db request then
    match User_query_filter_by_email_first db (RegisterForm.email form) with
    | Some _ =>
        mkResult db session
          ["You've already signed up with that email, log in instead!"]
          (redirect url_for_login)
    | None =>
        match security.generate_password_hash
                (RegisterForm.password form) "pbkdf2:sha256" salt with
        | inl e => mkResult db session [] (raise e)
        | inr hash_and_salted_password =>
            let new_user :=
              User.mk (RegisterForm.email form) hash_and_salted_password
                (RegisterForm.name form) in
            match add_user db new_user with
            | inl e => mkResult db session [] (raise e)
            | inr (id, db') =>
                mkResult db' (login_user id) [] (redirect url_for_get_all_projects)
            end
        end
    end
  else
    mkResult db session []
      (render_template "register.html"
         [arg_form (register_form form); arg_current_user (current_user db session)]).

(** [/login]. *)
Definition login `{Werkzeug} `{FlaskForm LoginForm.t}
    (request : Request LoginForm.t) : Handler := fun db session =>
  let form := form request in
  if validate_on_submit db request then
    let email := LoginForm.email form in
    let password := LoginForm.password form in
    match User_query_filter_by_email_first db email with
    | None =>
        mkResult db session ["That email does not exist, please try again."]
          (redirect url_for_login)
    | Some (id, row) =>
        match security.check_password_hash (User.password row) password with
        | inl e => mkResult db session [] (raise e)
        | inr false =>
            mkResult db session ["Password incorrect, please try again."]
              (redirect url_for_login)
        | inr true =>
            mkResult db (login_user id) [] (redirect url_for_get_all_projects)
        end
    end
  else
    mkResult db session []
      (render_template "login.html"
         [arg_form (login_form form); arg_current_user (current_user db session)]).

(** [/logout]. *)
Definition logout : Handler := fun db session =>
  mkResult db logout_user [] (redirect url_for_get_all_projects).

(** [/project/<int:project_id>]. *)
Definition show_project `{FlaskForm CommentForm.t}
    (project_id : Z) (request : Request CommentForm.t) : Handler := fun db session =>
  let form := form request in
  let requested_project := Project_query_get db project_id in
  if validate_on_submit db request then
    match current_user db session with
    | AnonymousUserMixin =>
        (* [not current_user.is_authenticated] *)
        mkResult db session ["You need to login or register to comment."]
          (redirect url_for_login)
    | user id _ =>
        let new_comment :=
          Comment.mk (fst <$> requested_project) (Some id)
            (CommentForm.comment_text form) in
        let db' := (add_comment db new_comment).2 in
        mkResult db' session []
          (render_template "project.html"
             [arg_project requested_project; arg_form (comment_form form);
              arg_current_user (current_user db' session)])
    end
  else
    mkResult db session []
      (render_template "project.html"
         [arg_project requested_project; arg_form (comment_form form);
          arg_current_user (current_user db session)]).

(** [/contact]. *)
Definition contact : Handler := fun db session =>
  mkResult db session []
    (render_template "contact.html" [arg_current_user (current_user db session)]).

(** [/new-project]; [today] is [date.today().strftime("%B %d, %Y")]. *)
Definition add_new_project `{FlaskForm CreateProjectForm.t}
    (today : string) (request : Request CreateProjectForm.t) : Handler :=
  admin_only (fun db session =>
    let form := form request in
    if validate_on_submit db request then
      match current_user db session with
      | AnonymousUserMixin =>
          (* not reached behind [admin_only]: the anonymous object is not
             a mapped instance and cannot be an [author] *)
          mkResult db session [] (raise AttributeError)
      | user author_id _ =>
          let new_project :=
            Project.mk (Some author_id)
              (CreateProjectForm.title form) (CreateProjectForm.subtitle form)
              today (CreateProjectForm.body form) (CreateProjectForm.img_url form) in
          match add_project db new_project with
          | inl e => mkResult db session [] (raise e)
          | inr (_, db') =>
              mkResult db' session [] (redirect url_for_get_all_projects)
          end
      end
    else
      mkResult db session []
        (render_template "make-project.html"
           [arg_form (project_form form);
            arg_current_user (current_user db session)])).

(** [/edit-project/<int:project_id>]: a GET shows the form filled from the
    project, a submission carries its own fields. *)
Definition edit_project `{FlaskForm CreateProjectForm.t}
    (project_id : Z) (request : Request CreateProjectForm.t) : Handler :=
  admin_only (fun db session =>
    match Project_query_get db project_id with
    | None => mkResult db session [] (raise AttributeError)
    | Some (id, project) =>
        let edit_form :=
          if is_submitted request then form request
          else CreateProjectForm.mk (Project.title project)
                 (Project.subtitle project) (Project.img_url project)
                 (Project.body project) in
        if validate_on_submit db request then
          let project' :=
            Project.mk (Project.author_id project)
              (CreateProjectForm.title edit_form)
              (CreateProjectForm.subtitle edit_form)
              (Project.date project)
              (CreateProjectForm.body edit_form)
              (CreateProjectForm.img_url edit_form) in
          match update_project db id project' with
          | inl e => mkResult db session [] (raise e)
          | inr db' => mkResult db' session [] (redirect (url_for_show_project id))
          end
        else
          mkResult db session []
            (render_template "make-project.html"
               [arg_form (project_form edit_form); arg_is_edit true;
                arg_current_user (current_user db session)])
    end).

(** [/delete/<int:project_id>]: [db.session.delete(None)] raises
    [UnmappedInstanceError]. *)
Definition delete_project (project_id : Z) : Handler :=
  admin_only (fun db session =>
    match Project_query_get db project_id with
    | None => mkResult db session [] (raise UnmappedInstanceError)
    | Some (id, _) =>
        mkResult (delete_project_row db id) session []
          (redirect url_for_get_all_projects)
    end).

(* ===================================================================== *)
(** * Predicates on the store *)
(* ===================================================================== *)

(** The author, respectively the parent project, of a comment is a row of
    the store. *)
Definition author_live (db : Database) (c : Comment.t) : Prop :=
  exists id, Comment.author_id c = Some id /\ is_Some (users db !! id).

Definition project_live (db : Database) (c : Comment.t) : Prop :=
  exists id, Comment.project_id c = Some id /\ is_Some (projects db !! id).

(** A response that shows a page, as a handled validation failure does. *)
Definition is_rendered (r : Response) : bool :=
  match r with
  | render_template _ _ => true
  | _ => false
  end.

(* ===================================================================== *)
(** * Sample data *)
(* ===================================================================== *)

Definition nonempty (s : string) : bool := negb (String.eqb s EmptyString).

(** Modelled from the spec: [forms.py] is not among the sources; the spec
    calls the text of a comment, the title, subtitle, body and image URL
    of a project and the fields of the registration and login forms
    required.  These validators accept a form when its fields are filled
    in; they instantiate the handlers in the examples. *)
Definition required_register : FlaskForm RegisterForm.t := fun _ f =>
  nonempty (RegisterForm.email f) && nonempty (RegisterForm.password f)
  && nonempty (RegisterForm.name f).

Definition required_login : FlaskForm LoginForm.t := fun _ f =>
  nonempty (LoginForm.email f) && nonempty (LoginForm.password f).

Definition required_comment : FlaskForm CommentForm.t := fun _ f =>
  nonempty (CommentForm.comment_text f).

Definition required_project : FlaskForm CreateProjectForm.t := fun _ f =>
  nonempty (CreateProjectForm.title f) && nonempty (CreateProjectForm.subtitle f)
  && nonempty (CreateProjectForm.img_url f) && nonempty (CreateProjectForm.body f).

(** The fields of a form that was not filled in, as on a GET. *)
Definition blank_comment_form : CommentForm.t := CommentForm.mk EmptyString.
Definition blank_project_form : CreateProjectForm.t :=
  CreateProjectForm.mk EmptyString EmptyString EmptyString EmptyString.

Definition empty_db : Database := mkDatabase ∅ ∅ ∅.

(** Two submissions of the project form: a project titled T1, and new
    fields under the title T2. *)
Definition second_T1 : Request CreateProjectForm.t :=
  mkRequest POST (CreateProjectForm.mk "T1" "again" "http://x.com/2.png" "text").
Definition retitle_T2 : Request CreateProjectForm.t :=
  mkRequest POST
    (CreateProjectForm.mk "T2" "second" "http://x.com/2.png" "new text").

(** The first registered user, who has id 1, a second user, and a project
    of the first. *)
Definition admin_row : User.t := User.mk "admin@x.com" "pbkdf2:sha256:1$s$00" "Admin".
Definition guest_row : User.t := User.mk "a@x.com" "pbkdf2:sha256:1$s$01" "A".
Definition project_T1 : Project.t :=
  Project.mk (Some 1) "T1" "first" "May 01, 2021" "text" "http://x.com/1.png".

Definition sample_db : Database :=
  mkDatabase (<[2 := guest_row]> {[1 := admin_row]}) {[1 := project_T1]} ∅.

(* ===================================================================== *)
(** * The routes and the consistency of the store *)
(* ===================================================================== *)

(** A request to one of the nine routes of [app.py], with what the view
    function takes from the URL, from the submitted form and from the
    environment (the salt draw, the date). *)
Inductive HttpRequest :=
| to_get_all_projects
| to_register (salt : string) (request : Request RegisterForm.t)
| to_login (request : Request LoginForm.t)
| to_logout
| to_show_project (project_id : Z) (request : Request CommentForm.t)
| to_contact
| to_add_new_project (today : string) (request : Request CreateProjectForm.t)
| to_edit_project (project_id : Z) (request : Request CreateProjectForm.t)
| to_delete_project (project_id : Z).

(** The URL map that the [@app.route] decorators build. *)
Definition dispatch `{!Werkzeug} `{!FlaskForm RegisterForm.t}
    `{!FlaskForm LoginForm.t} `{!FlaskForm CommentForm.t}
    `{!FlaskForm CreateProjectForm.t} (r : HttpRequest) : Handler :=
  match r with
  | to_get_all_projects => get_all_projects
  | to_register salt request => register salt request
  | to_login request => login request
  | to_logout => logout
  | to_show_project project_id request => show_project project_id request
  | to_contact => contact
  | to_add_new_project today request => add_new_project today request
  | to_edit_project project_id request => edit_project project_id request
  | to_delete_project project_id => delete_project project_id
  end.

(** The stores that the application can bring about from the empty
    tables of [db.create_all()], whatever session each request carries. *)
Inductive reachable `{!Werkzeug} `{!FlaskForm RegisterForm.t}
    `{!FlaskForm LoginForm.t} `{!FlaskForm CommentForm.t}
    `{!FlaskForm CreateProjectForm.t} : Database -> Prop :=
| reachable_empty : reachable empty_db
| reachable_step db session r :
    reachable db -> reachable (db_after (dispatch r db session)).

(** No two users share an email and no two projects share a title. *)
Definition unique_emails (db : Database) : Prop :=
  forall i j u v, users db !! i = Some u -> users db !! j = Some v ->
    User.email u = User.email v -> i = j.

Definition unique_titles (db : Database) : Prop :=
  forall i j p q, projects db !! i = Some p -> projects db !! j = Some q ->
    Project.title p = Project.title q -> i = j.

(** Every comment has a stored user as its author, and a stored project
    or no project as its parent. *)
Definition comments_linked (db : Database) : Prop :=
  forall k c, comments db !! k = Some c ->
    author_live db c /\ (Comment.project_id c = None \/ project_live db c).

(** Every project is authored by user 1, who is stored. *)
Definition projects_by_admin (db : Database) : Prop :=
  forall k p, projects db !! k = Some p ->
    Project.author_id p = Some 1 /\ is_Some (users db !! 1).

(** Unless nobody has registered, user 1 is stored. *)
Definition admin_first (db : Database) : Prop :=
  users db = ∅ \/ is_Some (users db !! 1).

Record consistent (db : Database) : Prop := mk_consistent {
  consistent_emails : unique_emails db;
  consistent_titles : unique_titles db;
  consistent_comments : comments_linked db;
  consistent_projects : projects_by_admin db;
  consistent_admin : admin_first db }.

(** The table or tables that a request may write, and whether it may
    change the session. *)
Definition writes_users (r : HttpRequest) : bool :=
  match r with to_register _ _ => true | _ => false end.

Definition writes_projects (r : HttpRequest) : bool :=
  match r with
  | to_add_new_project _ _ | to_edit_project _ _ | to_delete_project _ => true
  | _ => false
  end.

Definition writes_comments (r : HttpRequest) : bool :=
  match r with
  | to_show_project _ _ | to_delete_project _ => true
  | _ => false
  end.

Definition writes_session (r : HttpRequest) : bool :=
  match r with
  | to_register _ _ | to_login _ | to_logout => true
  | _ => false
  end.

(** The fields that the edit form shows for a project. *)
Definition form_of_project (project : Project.t) : CreateProjectForm.t :=
  CreateProjectForm.mk (Project.title project) (Project.subtitle project)
    (Project.img_url project) (Project.body project).

(** A registration of a third user, the matching login, and a login with
    another password. *)
Definition register_b : Request RegisterForm.t :=
  mkRequest POST (RegisterForm.mk "b@x.com" "pw" "B").
Definition login_b : Request LoginForm.t :=
  mkRequest POST (LoginForm.mk "b@x.com" "pw").
Definition login_b_wrong : Request LoginForm.t :=
  mkRequest POST (LoginForm.mk "b@x.com" "wrong").

(** The sample store with a second project, and with a comment of the
    second user on the first project. *)
Definition project_T2 : Project.t :=
  Project.mk (Some 1) "T2" "second" "May 02, 2021" "text" "http://x.com/2.png".

Definition two_projects_db : Database :=
  mkDatabase (users sample_db) (<[2 := project_T2]> (projects sample_db))
    (comments sample_db).

Definition commented_db : Database :=
  mkDatabase (users sample_db) (projects sample_db)
    {[1 := Comment.mk (Some 1) (Some 2) "hi"]}.

(* ===================================================================== *)
(** * Test vectors *)
(* ===================================================================== *)

(** The digest of "abc" of FIPS 180-4, the PBKDF2-HMAC-SHA256 key of
    "password" and "salt" after two iterations, and a Werkzeug hash. *)
Example sha256_abc :
  hex (hashlib.sha256 (list_ascii_of_string "abc"))
  = "ba7816bf8f01cfea414140de5dae2223b00361a396177a9cb410ff61f20015ad".
Proof. vm_compute. reflexivity. Qed.

Example pbkdf2_rfc_vector_2 :
  hex <$> hashlib.pbkdf2_hmac (list_ascii_of_string "password")
            (list_ascii_of_string "salt") 2
  = inr "ae4d0c95af6b46d32d0adff928f06dd02a303f8ef3c251dfd6e2d85a95474c43".
Proof. vm_compute. reflexivity. Qed.

Example generate_password_hash_abc :
  @security.generate_password_hash one_iteration "abc" "pbkdf2:sha256" "saltsalt"
  = inr ("pbkdf2:sha256:1$saltsalt$"
         ++ "3e08f13ef33cdb62c889b930830f60197d623eaa2eec04f187d708dd998cd3b2").
Proof. vm_compute. reflexivity. Qed.

(* ===================================================================== *)
(** * Properties of the library layer *)
(* ===================================================================== *)

Lemma foldr_max_upper (l : list Z) (x : Z) : x ∈ l -> x <= foldr Z.max 0 l.
Proof.
  induction l as [|y l IH]; intros Hx.
  - by apply elem_of_nil in Hx.
  - apply elem_of_cons in Hx as [->|Hx]; simpl; [lia|].
    specialize (IH Hx). lia.
Qed.

(** The next id is not in use. *)
Lemma next_id_fresh {A} (table : gmap Z A) : table !! next_id table = None.
Proof.
  destruct (table !! next_id table) as [row|] eqn:Hrow; [|done].
  exfalso.
  assert (next_id table ∈ (map_to_list table).*1) as Hin.
  { apply list_elem_of_fmap. exists (next_id table, row).
    split; [done|]. by apply elem_of_map_to_list. }
  apply foldr_max_upper in Hin. unfold next_id in Hin at 1. lia.
Qed.

Lemma current_user_row db id row :
  users db !! id = Some row -> current_user db (Some id) = user id row.
Proof.
  intros Hrow. unfold current_user, load_user, User_query_get.
  by rewrite Hrow.
Qed.

Lemma current_user_inv db session id row :
  current_user db session = user id row ->
  session = Some id /\ users db !! id = Some row.
Proof.
  unfold current_user, load_user, User_query_get.
  destruct session as [uid|]; [|done].
  destruct (users db !! uid) as [r|] eqn:Hr; simpl; [|done].
  by intros [= <- <-].
Qed.

Lemma current_user_logged_out db : current_user db logout_user = AnonymousUserMixin.
Proof. done. Qed.

(** The three cases of the gate. *)
Lemma admin_only_anonymous (f : Handler) db session :
  current_user db session = AnonymousUserMixin ->
  admin_only f db session = mkResult db session [] (raise AttributeError).
Proof. intros Hu. unfold admin_only. by rewrite Hu. Qed.

Lemma admin_only_other (f : Handler) db session id row :
  current_user db session = user id row -> id ≠ 1 ->
  admin_only f db session = mkResult db session [] (abort 403).
Proof.
  intros Hu Hid. unfold admin_only. rewrite Hu. simpl.
  by rewrite bool_decide_eq_true_2.
Qed.

Lemma admin_only_admin (f : Handler) db session row :
  current_user db session = user 1 row ->
  admin_only f db session = f db session.
Proof. intros Hu. unfold admin_only. by rewrite Hu. Qed.

(** The gate lets the wrapped handler run exactly for the logged-in user
    with id 1; every other request ends at the gate, with the store and
    the session untouched. *)
Lemma admin_only_cases (f : Handler) db session :
  (exists row, current_user db session = user 1 row
               /\ admin_only f db session = f db session)
  \/ (exists id row, current_user db session = user id row /\ id ≠ 1
                     /\ admin_only f db session = mkResult db session [] (abort 403))
  \/ (current_user db session = AnonymousUserMixin
      /\ admin_only f db session = mkResult db session [] (raise AttributeError)).
Proof.
  destruct (current_user db session) as [|id row] eqn:Hu.
  - right. right. split; [done|]. by apply admin_only_anonymous.
  - destruct (decide (id = 1)) as [->|Hid].
    + left. exists row. split; [done|]. by eapply admin_only_admin.
    + right. left. exists id, row. split; [done|]. split; [done|].
      by eapply admin_only_other.
Qed.

(** A row with the email makes the duplicate lookup of [register] and the
    lookup of [login] succeed. *)
Lemma filter_by_email_first_found db id row :
  users db !! id = Some row ->
  is_Some (User_query_filter_by_email_first db (User.email row)).
Proof.
  intros Hrow. unfold User_query_filter_by_email_first.
  destruct (find _ _) as [r|] eqn:Hfind; [by eexists|].
  exfalso.
  assert (In (id, row) (map_to_list (users db))) as Hin.
  { apply list_elem_of_In. by apply elem_of_map_to_list. }
  apply (find_none _ _ Hfind) in Hin. simpl in Hin.
  by rewrite String.eqb_refl in Hin.
Qed.

Lemma existsb_title_taken db id row title :
  projects db !! id = Some row -> Project.title row = title ->
  existsb (fun r => String.eqb (Project.title r.2) title)
    (map_to_list (projects db)) = true.
Proof.
  intros Hrow Ht. apply existsb_exists. exists (id, row). split.
  - apply list_elem_of_In. by apply elem_of_map_to_list.
  - simpl. rewrite Ht. apply String.eqb_refl.
Qed.

(* ===================================================================== *)
(** * Password hashes *)
(* ===================================================================== *)

Lemma str_count_app c (a b : string) :
  str_count c (a ++ b) = (str_count c a + str_count c b)%nat.
Proof. induction a as [|x a IH]; simpl; [done|]. rewrite IH. lia. Qed.

Lemma str_split_0 sep s : str_split sep 0 s = [s].
Proof.
  induction s as [|a s IH]; simpl; [done|].
  destruct (Ascii.eqb a sep); [done|]. by rewrite IH.
Qed.

Lemma str_split_none sep n s :
  str_count sep s = 0%nat -> str_split sep n s = [s].
Proof.
  induction s as [|a s IH]; simpl; [done|].
  destruct (Ascii.eqb a sep); [done|]. simpl. intros Hs. by rewrite IH.
Qed.

Lemma str_split_first sep n (a b : string) :
  str_count sep a = 0%nat ->
  str_split sep (S n) (a ++ String sep b) = a :: str_split sep n b.
Proof.
  induction a as [|x a IH]; simpl.
  - intros _. by rewrite Ascii.eqb_refl.
  - destruct (Ascii.eqb x sep); [done|]. simpl. intros Ha. by rewrite IH.
Qed.

(** A string over an alphabet that lacks [sep] does not contain [sep]. *)
Lemma all_in_count alphabet sep s :
  existsb (Ascii.eqb sep) (list_ascii_of_string alphabet) = false ->
  all_in alphabet s = true -> str_count sep s = 0%nat.
Proof.
  intros Hsep. unfold all_in.
  induction s as [|a s IH]; simpl; [done|].
  intros [Ha Hs]%andb_true_iff. rewrite (IH Hs).
  destruct (Ascii.eqb_spec a sep) as [->|_]; [|done].
  by rewrite Hsep in Ha.
Qed.

Lemma string_of_uint_digits d :
  all_in "0123456789" (NilEmpty.string_of_uint d) = true.
Proof. unfold all_in. induction d; simpl; auto. Qed.

Lemma str_of_N_pos p : str_of_N (N.pos p) = NilEmpty.string_of_uint (Pos.to_uint p).
Proof.
  unfold str_of_N. simpl.
  pose proof (DecimalPos.Unsigned.to_uint_nonnil p) as Hp.
  by destruct (Pos.to_uint p).
Qed.

Lemma str_of_N_pos_count sep p :
  existsb (Ascii.eqb sep) (list_ascii_of_string "0123456789") = false ->
  str_count sep (str_of_N (N.pos p)) = 0%nat.
Proof.
  intros Hsep. rewrite str_of_N_pos.
  eapply all_in_count; [done|]. apply string_of_uint_digits.
Qed.

Lemma int_or_0_str_of_N p : int_or_0 (str_of_N (N.pos p)) = inr (N.pos p).
Proof.
  unfold int_or_0. rewrite str_of_N_pos, NilEmpty.usu.
  f_equal. apply (DecimalN.Unsigned.of_to (N.pos p)).
Qed.

Lemma substring_0_length s : String.substring 0 (String.length s) s = s.
Proof. induction s as [|a s IH]; simpl; [done|]. by rewrite IH. Qed.

Lemma unhex_hex_byte a : unhex_byte (hex_byte a) = a.
Proof. by destruct a as [[] [] [] [] [] [] [] []]. Qed.

Lemma hex_inj a b : hex a = hex b -> a = b.
Proof.
  unfold hex. intros Heq.
  apply (f_equal list_ascii_of_string) in Heq.
  rewrite !list_ascii_of_string_of_list_ascii in Heq.
  revert b Heq. induction a as [|x a IH]; intros [|y b]; simpl; try done.
  intros [= H1 H2 Hrest].
  assert (hex_byte x = hex_byte y) as Hxy by (unfold hex_byte; congruence).
  apply (f_equal unhex_byte) in Hxy. rewrite !unhex_hex_byte in Hxy.
  f_equal; [done|]. by apply IH.
Qed.

Lemma hex_eqb a b : String.eqb (hex a) (hex b) = bool_decide (a = b).
Proof.
  case_bool_decide as Hab.
  - subst. apply String.eqb_refl.
  - apply String.eqb_neq. intros Heq. by apply Hab, hex_inj.
Qed.

Lemma is_gen_salt_nonempty n salt :
  security.is_gen_salt n salt = true -> String.eqb salt EmptyString = false.
Proof.
  unfold security.is_gen_salt.
  intros [[Hn Hlen]%andb_true_iff _]%andb_true_iff.
  apply Nat.ltb_lt in Hn. apply Nat.eqb_eq in Hlen.
  destruct salt; simpl in *; [lia|done].
Qed.

Lemma is_gen_salt_count n salt :
  security.is_gen_salt n salt = true -> str_count "$" salt = 0%nat.
Proof.
  unfold security.is_gen_salt. intros [_ Hall]%andb_true_iff.
  apply (all_in_count security.SALT_CHARS); [reflexivity|done].
Qed.

Lemma key_block_zero_padding (password : bytes) :
  (length password < 64)%nat ->
  hashlib.key_block (password ++ [zero]) = hashlib.key_block password.
Proof.
  intros Hlen. unfold hashlib.key_block.
  assert ((64 <? length (password ++ [zero]))%nat = false) as ->.
  { apply Nat.ltb_ge. rewrite length_app. simpl. lia. }
  assert ((64 <? length password)%nat = false) as -> by (apply Nat.ltb_ge; lia).
  cbv zeta. rewrite length_app. simpl length.
  replace (64 - length password)%nat with (S (64 - (length password + 1))) by lia.
  by rewrite <- app_assoc.
Qed.

Section password_hashes.
Context `{!Werkzeug}.

Local Opaque hashlib.derive hashlib.key_block hex.

Lemma pbkdf2_hmac_default salt password :
  hashlib.pbkdf2_hmac (list_ascii_of_string password)
    (list_ascii_of_string salt) (N.pos DEFAULT_PBKDF2_ITERATIONS)
  = inr (derived_key salt password).
Proof.
  unfold hashlib.pbkdf2_hmac.
  assert ((N.pos DEFAULT_PBKDF2_ITERATIONS <? 1)%N = false) as ->
    by (apply N.ltb_ge; lia).
  done.
Qed.

Lemma pbkdf2_hex_sha256 salt password :
  security.pbkdf2_hex "sha256" (list_ascii_of_string password)
    (list_ascii_of_string salt) (N.pos DEFAULT_PBKDF2_ITERATIONS)
  = inr (hex (derived_key salt password)).
Proof.
  unfold security.pbkdf2_hex. simpl String.eqb.
  by rewrite pbkdf2_hmac_default.
Qed.

Lemma hash_internal_default salt password :
  String.eqb salt EmptyString = false ->
  security._hash_internal "pbkdf2:sha256" salt password
  = inr (hex (derived_key salt password), actual_method).
Proof.
  intros Hsalt. unfold security._hash_internal.
  change (String.eqb "pbkdf2:sha256" "plain") with false.
  change (startswith "pbkdf2:" "pbkdf2:sha256") with true.
  change (str_split ":" (String.length "pbkdf2:sha256") (str_from 7 "pbkdf2:sha256"))
    with ["sha256"].
  cbv beta iota. unfold mbind, raises_bind at 1.
  rewrite Hsalt, pbkdf2_hex_sha256. done.
Qed.

Lemma hash_internal_actual salt password :
  String.eqb salt EmptyString = false ->
  security._hash_internal actual_method salt password
  = inr (hex (derived_key salt password), actual_method).
Proof.
  intros Hsalt. unfold security._hash_internal, actual_method.
  set (d := str_of_N (N.pos DEFAULT_PBKDF2_ITERATIONS)).
  change (String.eqb ("pbkdf2:sha256:" ++ d) "plain") with false.
  change (startswith "pbkdf2:" ("pbkdf2:sha256:" ++ d)) with true.
  assert (str_from 7 ("pbkdf2:sha256:" ++ d) = "sha256" ++ String ":" d) as ->.
  { unfold str_from. simpl. by rewrite substring_0_length. }
  change (String.length ("pbkdf2:sha256:" ++ d))
    with (S (String.length ("bkdf2:sha256:" ++ d))).
  rewrite str_split_first by done.
  rewrite str_split_none by (by apply str_of_N_pos_count).
  cbv beta iota. unfold d. rewrite int_or_0_str_of_N.
  unfold mbind, raises_bind, mret, raises_ret. cbv beta iota.
  change (N.pos DEFAULT_PBKDF2_ITERATIONS =? 0)%N with false. cbv beta iota.
  rewrite Hsalt, pbkdf2_hex_sha256. done.
Qed.

Lemma actual_method_count : str_count "$" actual_method = 0%nat.
Proof.
  unfold actual_method. rewrite str_count_app.
  by rewrite str_of_N_pos_count.
Qed.

(** What [register] stores for a password. *)
Lemma generate_password_hash_pbkdf2 salt password :
  security.is_gen_salt 8 salt = true ->
  security.generate_password_hash password "pbkdf2:sha256" salt
  = inr (actual_method ++ "$" ++ salt ++ "$" ++ hex (derived_key salt password)).
Proof.
  intros Hsalt. unfold security.generate_password_hash.
  change (String.eqb "pbkdf2:sha256" "plain") with false. cbv beta iota.
  by rewrite hash_internal_default by by eapply is_gen_salt_nonempty.
Qed.

(** What [login] computes on a stored hash of that shape. *)
Lemma check_password_hash_pbkdf2 salt key password :
  security.is_gen_salt 8 salt = true ->
  security.check_password_hash
    (actual_method ++ "$" ++ salt ++ "$" ++ hex key) password
  = inr (bool_decide (derived_key salt password = key)).
Proof.
  intros Hsalt. unfold security.check_password_hash.
  pose proof actual_method_count as Hm.
  pose proof (is_gen_salt_count _ _ Hsalt) as Hs.
  assert ((str_count "$" (actual_method ++ "$" ++ salt ++ "$" ++ hex key) <? 2)%nat
          = false) as ->.
  { apply Nat.ltb_ge. rewrite !str_count_app. simpl. lia. }
  change ("$" ++ salt ++ "$" ++ hex key) with (String "$" (salt ++ String "$" (hex key))).
  rewrite !str_split_first, str_split_0 by done.
  rewrite hash_internal_actual by by eapply is_gen_salt_nonempty.
  unfold mbind, raises_bind, mret, raises_ret. cbv beta iota.
  by rewrite hex_eqb.
Qed.

(** C4, as the code has it: a hash generated for a plaintext verifies
    that plaintext; and whether it verifies another plaintext is decided
    by the PBKDF2-HMAC-SHA256 keys of the two under the salt of the hash:
    verification fails exactly when the keys differ. *)
Theorem check_password_hash_generated salt p q :
  security.is_gen_salt 8 salt = true ->
  exists h,
    security.generate_password_hash q "pbkdf2:sha256" salt = inr h
    /\ security.check_password_hash h q = inr true
    /\ security.check_password_hash h p
       = inr (bool_decide (derived_key salt p = derived_key salt q)).
Proof.
  intros Hsalt. eexists. split; [by apply generate_password_hash_pbkdf2|].
  rewrite !check_password_hash_pbkdf2 by done.
  by rewrite bool_decide_eq_true_2.
Qed.

(** A plaintext shorter than the HMAC block and the same plaintext
    followed by a NUL character have the same key block, hence the same
    derived key. *)
Lemma derived_key_zero_padding salt password :
  (String.length password < 64)%nat ->
  derived_key salt (password ++ NUL) = derived_key salt password.
Proof.
  intros Hlen. unfold derived_key.
  assert (list_ascii_of_string (password ++ NUL)
          = (list_ascii_of_string password ++ [zero])%list) as ->.
  { clear. induction password as [|a s IH]; simpl; [done|]. by rewrite IH. }
  rewrite key_block_zero_padding; [done|].
  assert (List.length (list_ascii_of_string password) = String.length password)
    as ->; [|done].
  clear. induction password; simpl; congruence.
Qed.

End password_hashes.

(** Against C4 as stated: "abc" and "abc" followed by a NUL character are
    distinct plaintexts, and the hash generated for the first verifies the
    second. *)
Lemma distinct_plaintexts_verify :
  "abc" ++ NUL ≠ "abc"
  /\ exists h,
      @security.generate_password_hash werkzeug_1_0 "abc" "pbkdf2:sha256" "saltsalt"
      = inr h
      /\ @security.check_password_hash werkzeug_1_0 h ("abc" ++ NUL)
         = inr true.
Proof.
  split; [discriminate|].
  eexists. split.
  - by apply generate_password_hash_pbkdf2.
  - rewrite check_password_hash_pbkdf2 by done.
    rewrite derived_key_zero_padding by (simpl; lia).
    by rewrite bool_decide_eq_true_2.
Qed.

(** The same at one iteration, where the whole derivation runs. *)
Example nul_suffix_verifies_computed :
  @security.check_password_hash one_iteration
    ("pbkdf2:sha256:1$saltsalt$"
     ++ "3e08f13ef33cdb62c889b930830f60197d623eaa2eec04f187d708dd998cd3b2")
    ("abc" ++ NUL)
  = inr true.
Proof. vm_compute. reflexivity. Qed.

Lemma check_password_hash_generated_witness :
  exists h,
    @security.generate_password_hash one_iteration "pw" "pbkdf2:sha256" "saltsalt"
    = inr h
    /\ @security.check_password_hash one_iteration h "pw" = inr true
    /\ @security.check_password_hash one_iteration h "wrong"
       = inr (bool_decide (@derived_key one_iteration "saltsalt" "wrong"
                           = @derived_key one_iteration "saltsalt" "pw")).
Proof.
  apply (@check_password_hash_generated one_iteration "saltsalt" "wrong" "pw").
  vm_compute. reflexivity.
Defined.

(* ===================================================================== *)
(** * The authorization gate *)
(* ===================================================================== *)

Section gate.
Context `{!FlaskForm CreateProjectForm.t}.

(** A logged-in user other than user 1 gets 403 from the three gated
    routes, and nothing is written. *)
Lemma gated_routes_forbidden db session id row today project_id request :
  current_user db session = user id row -> id ≠ 1 ->
  add_new_project today request db session = mkResult db session [] (abort 403)
  /\ edit_project project_id request db session = mkResult db session [] (abort 403)
  /\ delete_project project_id db session = mkResult db session [] (abort 403).
Proof.
  intros Hu Hid. unfold add_new_project, edit_project, delete_project.
  by rewrite !(admin_only_other _ _ _ _ _ Hu Hid).
Qed.

(** C1, at the input where the code departs from it: a visitor who is
    not logged in does not get 403 from the new-project, edit-project and
    delete-project routes.  [admin_only] reads [current_user.id], the
    anonymous user object has no such attribute, and the AttributeError
    escapes the handler; the store and the session are left as they
    were. *)
Theorem gated_routes_anonymous_raise db today project_id request :
  add_new_project today request db None
    = mkResult db None [] (raise AttributeError)
  /\ edit_project project_id request db None
    = mkResult db None [] (raise AttributeError)
  /\ delete_project project_id db None
    = mkResult db None [] (raise AttributeError).
Proof. done. Qed.

End gate.

(* ===================================================================== *)
(** * Registration, login and logout *)
(* ===================================================================== *)

Section accounts.
Context `{!Werkzeug} `{!FlaskForm RegisterForm.t} `{!FlaskForm LoginForm.t}.

(** With a user of the submitted email in the store, [register] writes
    nothing, whether or not the form validates. *)
Lemma register_duplicate_email_writes_nothing salt request db session id row :
  users db !! id = Some row ->
  User.email row = RegisterForm.email (form request) ->
  db_after (register salt request db session) = db.
Proof.
  intros Hrow Hemail.
  destruct (filter_by_email_first_found db id row Hrow) as [r Hr].
  rewrite Hemail in Hr. unfold register. rewrite Hr.
  by destruct (validate_on_submit db request).
Qed.

(** C5: when the store holds a user with the submitted email, a
    submission of the registration form creates no user: [register]
    leaves the store and the session as they were, flashes the warning
    and redirects to the login page. *)
Theorem register_duplicate_email salt request db session id row :
  users db !! id = Some row ->
  User.email row = RegisterForm.email (form request) ->
  validate_on_submit db request = true ->
  register salt request db session
  = mkResult db session
      ["You've already signed up with that email, log in instead!"]
      (redirect url_for_login).
Proof.
  intros Hrow Hemail Hvalid.
  destruct (filter_by_email_first_found db id row Hrow) as [r Hr].
  rewrite Hemail in Hr. unfold register. by rewrite Hvalid, Hr.
Qed.

(** C9: [logout] clears the session and redirects to the project list
    whatever the session was, and writes nothing; so after [login_user]
    for any user, and after any request to the login route, a logout
    leaves the anonymous user. *)
Theorem logout_after_login db :
  (forall session,
      logout db session
      = mkResult db None [] (redirect url_for_get_all_projects))
  /\ (forall id,
      let r := logout db (login_user id) in
      current_user (db_after r) (session_after r) = AnonymousUserMixin)
  /\ (forall request session,
      let r1 := login request db session in
      let r2 := logout (db_after r1) (session_after r1) in
      current_user (db_after r2) (session_after r2) = AnonymousUserMixin).
Proof. done. Qed.

End accounts.

Lemma register_duplicate_email_witness :
  @register one_iteration required_register "saltsalt"
    (mkRequest POST (RegisterForm.mk "a@x.com" "pw" "A")) sample_db None
  = mkResult sample_db None
      ["You've already signed up with that email, log in instead!"]
      (redirect url_for_login).
Proof.
  apply (@register_duplicate_email one_iteration required_register
           "saltsalt" (mkRequest POST (RegisterForm.mk "a@x.com" "pw" "A"))
           sample_db None 2 guest_row).
  - vm_compute. reflexivity.
  - reflexivity.
  - vm_compute. reflexivity.
Defined.

(* ===================================================================== *)
(** * Project pages and comments *)
(* ===================================================================== *)

Section show.
Context `{!FlaskForm CommentForm.t}.

(** Whatever the request, an anonymous visitor of a project page writes
    nothing. *)
Lemma show_project_anonymous_writes_nothing project_id request db session :
  is_authenticated (current_user db session) = false ->
  db_after (show_project project_id request db session) = db.
Proof.
  intros Hu. unfold show_project.
  destruct (current_user db session); [|done].
  by destruct (validate_on_submit db request).
Qed.

(** C6: on every project page, present in the store or not, a comment
    submitted by an anonymous visitor is not persisted: the store (and
    so the comments table) is unchanged, the warning is flashed and the
    visitor is redirected to the login page. *)
Theorem show_project_anonymous_comment project_id request db session :
  is_authenticated (current_user db session) = false ->
  validate_on_submit db request = true ->
  show_project project_id request db session
  = mkResult db session ["You need to login or register to comment."]
      (redirect url_for_login).
Proof.
  intros Hu Hvalid. unfold show_project. rewrite Hvalid.
  by destruct (current_user db session).
Qed.

(** C7, as the code has it: for a project id that is not in the store, a
    GET of the project page does not answer Not Found; the handler hands
    [project=None] to the project template and returns that rendering,
    with nothing written and nothing flashed. *)
Theorem show_project_missing_renders project_id request db session :
  projects db !! project_id = None ->
  http_method request = GET ->
  show_project project_id request db session
  = mkResult db session []
      (render_template "project.html"
         [arg_project None; arg_form (comment_form (form request));
          arg_current_user (current_user db session)]).
Proof.
  intros Hp Hget. unfold show_project, Project_query_get, validate_on_submit.
  unfold is_submitted. by rewrite Hget, Hp.
Qed.

(** What a valid comment submission of a logged-in user does: one new
    row, under a key that was free, whose author is the current user and
    whose project is the requested one when that exists and NULL when it
    does not. *)
Lemma show_project_comment_added project_id request db session id row :
  current_user db session = user id row ->
  validate_on_submit db request = true ->
  let new_comment :=
    Comment.mk (fst <$> Project_query_get db project_id) (Some id)
      (CommentForm.comment_text (form request)) in
  db_after (show_project project_id request db session)
  = mkDatabase (users db) (projects db)
      (<[next_id (comments db) := new_comment]> (comments db))
  /\ comments db !! next_id (comments db) = None.
Proof.
  intros Hu Hvalid. unfold show_project. rewrite Hvalid, Hu. simpl.
  split; [done|]. apply next_id_fresh.
Qed.

(** C2, as the code has it: every comment that [show_project] adds to
    the store has an existing user as its author, and, when the requested
    project id is in the store, that existing project as its parent. *)
Theorem show_project_comment_references project_id request db session k c :
  let db' := db_after (show_project project_id request db session) in
  comments db' !! k = Some c ->
  comments db !! k ≠ Some c ->
  author_live db' c
  /\ (is_Some (projects db !! project_id) ->
      Comment.project_id c = Some project_id /\ project_live db' c).
Proof.
  intros db' Hnew Hold. subst db'. revert Hnew.
  unfold show_project.
  destruct (validate_on_submit db request); [|done].
  destruct (current_user db session) as [|id row] eqn:Hu; [done|].
  apply current_user_inv in Hu as [_ Hrow]. simpl.
  intros Hnew. apply lookup_insert_Some in Hnew as [[_ <-]|[_ Hk]]; [|done].
  unfold author_live, project_live, Project_query_get. simpl. split.
  - exists id. by rewrite Hrow.
  - intros [project Hp]. rewrite Hp. simpl. split; [done|].
    exists project_id. by rewrite Hp.
Qed.

End show.

Section projects.
Context `{!FlaskForm CreateProjectForm.t}.

(** C3, as the code has it: when the administrator submits a valid
    new-project form whose title is the title of a stored project, the
    handler does not render a validation error; the INSERT violates the
    uniqueness of [Project.title], the IntegrityError of the commit
    escapes the handler, and the store is unchanged, so no second project
    with that title exists. *)
Theorem add_new_project_duplicate_title today request db session admin id project :
  current_user db session = user 1 admin ->
  validate_on_submit db request = true ->
  projects db !! id = Some project ->
  Project.title project = CreateProjectForm.title (form request) ->
  add_new_project today request db session
  = mkResult db session [] (raise IntegrityError).
Proof.
  intros Hu Hvalid Hp Htitle.
  unfold add_new_project. rewrite (admin_only_admin _ _ _ _ Hu).
  rewrite Hvalid, Hu. unfold add_project. simpl.
  by rewrite (existsb_title_taken db id project _ Hp Htitle).
Qed.

(** C8: when the administrator submits a valid edit form for a stored
    project and the commit goes through (no other project holds the new
    title), the project's row gets the submitted title, subtitle, image
    URL and body and keeps its author and date; every other row of the
    store is as before, and the response redirects to the page of that
    project. *)
Theorem edit_project_overwrites project_id request db session admin project :
  current_user db session = user 1 admin ->
  projects db !! project_id = Some project ->
  validate_on_submit db request = true ->
  (forall id other, projects db !! id = Some other -> id ≠ project_id ->
     Project.title other ≠ CreateProjectForm.title (form request)) ->
  let f := form request in
  let project' :=
    Project.mk (Project.author_id project)
      (CreateProjectForm.title f) (CreateProjectForm.subtitle f)
      (Project.date project)
      (CreateProjectForm.body f) (CreateProjectForm.img_url f) in
  edit_project project_id request db session
  = mkResult
      (mkDatabase (users db) (<[project_id := project']> (projects db))
         (comments db))
      session [] (redirect (url_for_show_project project_id)).
Proof.
  intros Hu Hp Hvalid Hfree f project'.
  unfold edit_project. rewrite (admin_only_admin _ _ _ _ Hu).
  unfold Project_query_get. rewrite Hp. simpl. rewrite Hvalid.
  assert (is_submitted request = true) as ->.
  { unfold validate_on_submit in Hvalid. by apply andb_true_iff in Hvalid as [? _]. }
  unfold update_project.
  destruct (existsb _ _) eqn:Hex; [|done].
  exfalso. apply existsb_exists in Hex as [[id other] [Hin Hdup]].
  apply list_elem_of_In, elem_of_map_to_list in Hin. simpl in Hdup.
  apply andb_true_iff in Hdup as [Hid Ht].
  apply negb_true_iff, Z.eqb_neq in Hid. apply String.eqb_eq in Ht.
  by apply (Hfree id other).
Qed.

(** C10: for a project id that is not in the store, the administrator's
    request to the delete route lets the UnmappedInstanceError of
    [db.session.delete(None)] escape, and the request to the edit route,
    GET or POST, lets the AttributeError of [project.title] escape;
    neither answers Not Found, and nothing is written. *)
Theorem admin_routes_missing_project_raise project_id request db session admin :
  current_user db session = user 1 admin ->
  projects db !! project_id = None ->
  delete_project project_id db session
  = mkResult db session [] (raise UnmappedInstanceError)
  /\ edit_project project_id request db session
  = mkResult db session [] (raise AttributeError).
Proof.
  intros Hu Hp. unfold delete_project, edit_project.
  rewrite !(admin_only_admin _ _ _ _ Hu).
  unfold Project_query_get. by rewrite Hp.
Qed.

End projects.

(* ===================================================================== *)
(** * The properties at sample requests *)
(* ===================================================================== *)

Lemma show_project_anonymous_comment_witness :
  @show_project required_comment 1 (mkRequest POST (CommentForm.mk "hi"))
    sample_db None
  = mkResult sample_db None ["You need to login or register to comment."]
      (redirect url_for_login).
Proof.
  apply (@show_project_anonymous_comment required_comment 1
           (mkRequest POST (CommentForm.mk "hi")) sample_db None).
  - reflexivity.
  - vm_compute. reflexivity.
Defined.

(** Against C7 as stated: project 7 is not in the sample store, and a GET
    of its page is answered with the rendering of the project template,
    not with Not Found. *)
Lemma show_project_missing_is_not_404 :
  let r := @show_project required_comment 7 (mkRequest GET blank_comment_form)
             sample_db None in
  projects sample_db !! 7 = None
  /\ response r ≠ abort 404
  /\ is_rendered (response r) = true.
Proof. vm_compute. split; [reflexivity|]. split; [discriminate|reflexivity]. Qed.

Lemma show_project_missing_renders_witness :
  @show_project required_comment 7 (mkRequest GET blank_comment_form)
    sample_db None
  = mkResult sample_db None []
      (render_template "project.html"
         [arg_project None; arg_form (comment_form blank_comment_form);
          arg_current_user AnonymousUserMixin]).
Proof.
  apply (@show_project_missing_renders required_comment 7
           (mkRequest GET blank_comment_form) sample_db None).
  - vm_compute. reflexivity.
  - reflexivity.
Defined.

(** Against C2 as stated: the second user comments on project 7, which is
    not in the sample store; the comment is persisted under a new key and
    its parent project is NULL, not a project of the store. *)
Lemma comment_on_missing_project_not_live :
  let r := @show_project required_comment 7 (mkRequest POST (CommentForm.mk "hi"))
             sample_db (Some 2) in
  let c := Comment.mk None (Some 2) "hi" in
  comments (db_after r) !! 1 = Some c
  /\ comments sample_db !! 1 = None
  /\ ~ project_live (db_after r) c.
Proof.
  split; [vm_compute; reflexivity|]. split; [vm_compute; reflexivity|].
  intros [id [Hid _]]. discriminate Hid.
Qed.

Lemma show_project_comment_references_witness :
  let db' := db_after (@show_project required_comment 1
                         (mkRequest POST (CommentForm.mk "hi")) sample_db (Some 2)) in
  let c := Comment.mk (Some 1) (Some 2) "hi" in
  author_live db' c
  /\ (is_Some (projects sample_db !! 1) ->
      Comment.project_id c = Some 1 /\ project_live db' c).
Proof.
  apply (@show_project_comment_references required_comment 1
           (mkRequest POST (CommentForm.mk "hi")) sample_db (Some 2) 1
           (Comment.mk (Some 1) (Some 2) "hi")).
  - vm_compute. reflexivity.
  - vm_compute. discriminate.
Defined.

(** Against C3 as stated: the administrator submits a second project
    titled T1; the response is the escaped IntegrityError, not a rendered
    validation error. *)
Lemma duplicate_title_is_not_rendered :
  let r := @add_new_project required_project "May 02, 2021"
             second_T1
             sample_db (Some 1) in
  response r = raise IntegrityError /\ is_rendered (response r) = false.
Proof. vm_compute. split; reflexivity. Qed.

Lemma add_new_project_duplicate_title_witness :
  @add_new_project required_project "May 02, 2021"
    second_T1
    sample_db (Some 1)
  = mkResult sample_db (Some 1) [] (raise IntegrityError).
Proof.
  apply (@add_new_project_duplicate_title required_project "May 02, 2021"
           second_T1
           sample_db (Some 1) admin_row 1 project_T1).
  - vm_compute. reflexivity.
  - vm_compute. reflexivity.
  - vm_compute. reflexivity.
  - reflexivity.
Defined.

Lemma edit_project_overwrites_witness :
  @edit_project required_project 1
    retitle_T2
    sample_db (Some 1)
  = mkResult
      (mkDatabase (users sample_db)
         (<[1 := Project.mk (Some 1) "T2" "second" "May 01, 2021" "new text"
                   "http://x.com/2.png"]> (projects sample_db))
         (comments sample_db))
      (Some 1) [] (redirect (url_for_show_project 1)).
Proof.
  apply (@edit_project_overwrites required_project 1
           retitle_T2
           sample_db (Some 1) admin_row project_T1).
  - vm_compute. reflexivity.
  - vm_compute. reflexivity.
  - vm_compute. reflexivity.
  - intros id other Hother Hid. simpl in Hother.
    by rewrite lookup_singleton_ne in Hother.
Defined.

Lemma admin_routes_missing_project_raise_witness :
  delete_project 7 sample_db (Some 1)
  = mkResult sample_db (Some 1) [] (raise UnmappedInstanceError)
  /\ @edit_project required_project 7
       (mkRequest GET blank_project_form) sample_db (Some 1)
  = mkResult sample_db (Some 1) [] (raise AttributeError).
Proof.
  apply (@admin_routes_missing_project_raise required_project 7
           (mkRequest GET blank_project_form) sample_db (Some 1)
           admin_row).
  - vm_compute. reflexivity.
  - vm_compute. reflexivity.
Defined.

(** Registration on the empty store gives the new user id 1 and logs the
    user in; a later login with the password succeeds, and one with another
    password is turned away. *)
Example register_then_login :
  let r1 := @register one_iteration required_register "saltsalt"
              (mkRequest POST (RegisterForm.mk "a@x.com" "pw" "A")) empty_db None in
  let r2 := @login one_iteration required_login
              (mkRequest POST (LoginForm.mk "a@x.com" "pw")) (db_after r1) None in
  let r3 := @login one_iteration required_login
              (mkRequest POST (LoginForm.mk "a@x.com" "wrong")) (db_after r1) None in
  session_after r1 = Some 1
  /\ response r1 = redirect url_for_get_all_projects
  /\ session_after r2 = Some 1
  /\ response r2 = redirect url_for_get_all_projects
  /\ r3 = mkResult (db_after r1) None ["Password incorrect, please try again."]
            (redirect url_for_login).
Proof. vm_compute. repeat split. Qed.

(* ===================================================================== *)
(** * Lookups and commits *)
(* ===================================================================== *)

Lemma existsb_map_to_list_false {A} (f : Z * A -> bool) (m : gmap Z A) :
  existsb f (map_to_list m) = false ->
  forall k v, m !! k = Some v -> f (k, v) = false.
Proof.
  intros Hex k v Hkv. destruct (f (k, v)) eqn:Hf; [|done].
  rewrite <- Hex. symmetry. apply existsb_exists. exists (k, v).
  split; [|done]. by apply list_elem_of_In, elem_of_map_to_list.
Qed.

Lemma existsb_map_to_list_none {A} (f : Z * A -> bool) (m : gmap Z A) :
  (forall k v, m !! k = Some v -> f (k, v) = false) ->
  existsb f (map_to_list m) = false.
Proof.
  intros Hall. destruct (existsb f (map_to_list m)) eqn:Hex; [|done].
  apply existsb_exists in Hex as [[k v] [Hin Hf]].
  apply list_elem_of_In, elem_of_map_to_list in Hin.
  by rewrite (Hall k v Hin) in Hf.
Qed.

Lemma filter_by_email_first_Some db email id row :
  User_query_filter_by_email_first db email = Some (id, row) ->
  users db !! id = Some row /\ User.email row = email.
Proof.
  unfold User_query_filter_by_email_first. intros Hfind.
  apply find_some in Hfind as [Hin Heq]. split.
  - by apply list_elem_of_In, elem_of_map_to_list in Hin.
  - by apply String.eqb_eq in Heq.
Qed.

Lemma filter_by_email_first_None db email :
  (forall k u, users db !! k = Some u -> User.email u ≠ email) ->
  User_query_filter_by_email_first db email = None.
Proof.
  intros Hnone.
  destruct (User_query_filter_by_email_first db email) as [[id row]|] eqn:Hf;
    [|done].
  apply filter_by_email_first_Some in Hf as [Hrow Heq].
  by destruct (Hnone id row Hrow).
Qed.

Lemma filter_by_email_first_None_inv db email k u :
  User_query_filter_by_email_first db email = None ->
  users db !! k = Some u -> User.email u ≠ email.
Proof.
  intros Hf Hu Heq. subst email.
  destruct (filter_by_email_first_found db k u Hu) as [r Hr]. congruence.
Qed.

Lemma filter_by_email_first_new db new_user :
  (forall k u, users db !! k = Some u -> User.email u ≠ User.email new_user) ->
  User_query_filter_by_email_first
    (mkDatabase (<[next_id (users db) := new_user]> (users db))
       (projects db) (comments db))
    (User.email new_user)
  = Some (next_id (users db), new_user).
Proof.
  intros Hfree.
  destruct (filter_by_email_first_found
              (mkDatabase (<[next_id (users db) := new_user]> (users db))
                 (projects db) (comments db))
              (next_id (users db)) new_user) as [[id row] Hfind].
  { simpl. apply lookup_insert_eq. }
  rewrite Hfind. f_equal.
  apply filter_by_email_first_Some in Hfind as [Hrow Heq]. simpl in Hrow.
  apply lookup_insert_Some in Hrow as [[<- <-]|[_ Hrow]]; [done|].
  by destruct (Hfree id row Hrow).
Qed.

Lemma add_user_fresh db new_user :
  (forall k u, users db !! k = Some u -> User.email u ≠ User.email new_user) ->
  add_user db new_user
  = inr (next_id (users db),
         mkDatabase (<[next_id (users db) := new_user]> (users db))
           (projects db) (comments db)).
Proof.
  intros Hfree. unfold add_user. rewrite existsb_map_to_list_none; [done|].
  intros k u Hu. simpl. apply String.eqb_neq. by apply (Hfree k u).
Qed.

Lemma add_user_inv db new_user id db' :
  add_user db new_user = inr (id, db') ->
  (forall k u, users db !! k = Some u -> User.email u ≠ User.email new_user)
  /\ id = next_id (users db)
  /\ db' = mkDatabase (<[id := new_user]> (users db)) (projects db) (comments db).
Proof.
  unfold add_user. destruct (existsb _ _) eqn:Hex; [done|]. intros [= <- <-].
  split; [|done]. intros k u Hu.
  apply (existsb_map_to_list_false _ _ Hex) in Hu. simpl in Hu.
  by apply String.eqb_neq.
Qed.

Lemma add_project_fresh db new_project :
  (forall k p, projects db !! k = Some p ->
     Project.title p ≠ Project.title new_project) ->
  add_project db new_project
  = inr (next_id (projects db),
         mkDatabase (users db)
           (<[next_id (projects db) := new_project]> (projects db)) (comments db)).
Proof.
  intros Hfree. unfold add_project. rewrite existsb_map_to_list_none; [done|].
  intros k p Hp. simpl. apply String.eqb_neq. by apply (Hfree k p).
Qed.

Lemma add_project_inv db new_project id db' :
  add_project db new_project = inr (id, db') ->
  (forall k p, projects db !! k = Some p ->
     Project.title p ≠ Project.title new_project)
  /\ id = next_id (projects db)
  /\ db' = mkDatabase (users db) (<[id := new_project]> (projects db)) (comments db).
Proof.
  unfold add_project. destruct (existsb _ _) eqn:Hex; [done|]. intros [= <- <-].
  split; [|done]. intros k p Hp.
  apply (existsb_map_to_list_false _ _ Hex) in Hp. simpl in Hp.
  by apply String.eqb_neq.
Qed.

Lemma update_project_inv db id project db' :
  update_project db id project = inr db' ->
  (forall k p, projects db !! k = Some p -> k ≠ id ->
     Project.title p ≠ Project.title project)
  /\ db' = mkDatabase (users db) (<[id := project]> (projects db)) (comments db).
Proof.
  unfold update_project. destruct (existsb _ _) eqn:Hex; [done|]. intros [= <-].
  split; [|done]. intros k p Hp Hk.
  apply (existsb_map_to_list_false _ _ Hex) in Hp. simpl in Hp.
  apply andb_false_iff in Hp as [Hp|Hp].
  - apply negb_false_iff, Z.eqb_eq in Hp. done.
  - by apply String.eqb_neq.
Qed.

Lemma update_project_taken db id project k p :
  projects db !! k = Some p -> k ≠ id ->
  Project.title p = Project.title project ->
  update_project db id project = inl IntegrityError.
Proof.
  intros Hp Hk Ht. unfold update_project.
  destruct (existsb _ _) eqn:Hex; [done|].
  apply (existsb_map_to_list_false _ _ Hex) in Hp. simpl in Hp.
  rewrite Ht, String.eqb_refl, andb_true_r in Hp.
  apply negb_false_iff, Z.eqb_eq in Hp. done.
Qed.

Lemma database_eta db : mkDatabase (users db) (projects db) (comments db) = db.
Proof. by destruct db. Qed.

Lemma next_id_ge {A} (table : gmap Z A) k :
  is_Some (table !! k) -> k < next_id table.
Proof.
  intros [row Hrow]. unfold next_id.
  assert (k ∈ (map_to_list table).*1) as Hin.
  { apply list_elem_of_fmap. exists (k, row). split; [done|].
    by apply elem_of_map_to_list. }
  apply foldr_max_upper in Hin. lia.
Qed.

Lemma next_id_empty {A} : next_id (∅ : gmap Z A) = 1.
Proof. unfold next_id. by rewrite map_to_list_empty. Qed.

(* ===================================================================== *)
(** * Consistency of the store *)
(* ===================================================================== *)

Lemma author_live_insert db c id row :
  author_live db c ->
  author_live (mkDatabase (<[id := row]> (users db)) (projects db) (comments db)) c.
Proof.
  intros [a [Ha Hlive]]. exists a. split; [done|]. simpl.
  apply lookup_insert_is_Some. destruct (decide (id = a)); auto.
Qed.

Lemma consistent_empty : consistent empty_db.
Proof.
  split; unfold empty_db.
  - intros i j u v Hu. simpl in Hu. by rewrite lookup_empty in Hu.
  - intros i j p q Hp. simpl in Hp. by rewrite lookup_empty in Hp.
  - intros k c Hc. simpl in Hc. by rewrite lookup_empty in Hc.
  - intros k p Hp. simpl in Hp. by rewrite lookup_empty in Hp.
  - by left.
Qed.

Lemma add_user_consistent db new_user id db' :
  consistent db -> add_user db new_user = inr (id, db') -> consistent db'.
Proof.
  intros [He Ht Hc Hp Ha] (Hfree & -> & ->)%add_user_inv.
  split; simpl.
  - intros i j u v Hu Hv Heq. simpl in Hu, Hv.
    apply lookup_insert_Some in Hu as [[<- <-]|[Hi Hu]];
      apply lookup_insert_Some in Hv as [[<- <-]|[Hj Hv]]; try done.
    + by destruct (Hfree j v Hv).
    + by destruct (Hfree i u Hu).
    + by apply (He i j u v).
  - exact Ht.
  - intros k c Hk. destruct (Hc k c Hk) as [Hauthor Hproject].
    split; [by apply author_live_insert|exact Hproject].
  - intros k p Hk. destruct (Hp k p Hk) as [Hauthor Hadmin].
    split; [done|]. simpl. apply lookup_insert_is_Some.
    destruct (decide (next_id (users db) = 1)); auto.
  - right. simpl. apply lookup_insert_is_Some. destruct Ha as [Hempty|Hadmin].
    + left. rewrite Hempty. apply next_id_empty.
    + destruct (decide (next_id (users db) = 1)); auto.
Qed.

Lemma add_project_consistent db new_project id db' :
  consistent db ->
  Project.author_id new_project = Some 1 -> is_Some (users db !! 1) ->
  add_project db new_project = inr (id, db') -> consistent db'.
Proof.
  intros [He Ht Hc Hp Ha] Hauthor Hadmin (Hfree & -> & ->)%add_project_inv.
  split; simpl; [exact He| | | |exact Ha].
  - intros i j p q Hi Hj Heq. simpl in Hi, Hj.
    apply lookup_insert_Some in Hi as [[<- <-]|[Hi Hpi]];
      apply lookup_insert_Some in Hj as [[<- <-]|[Hj Hpj]]; try done.
    + by destruct (Hfree j q Hpj).
    + by destruct (Hfree i p Hpi).
    + by apply (Ht i j p q).
  - intros k c Hk. destruct (Hc k c Hk) as [Hlive Hproject].
    split; [exact Hlive|]. destruct Hproject as [Hnone|[pid [Hpid Hsome]]]; [by left|].
    right. exists pid. split; [done|]. simpl. apply lookup_insert_is_Some.
    destruct (decide (next_id (projects db) = pid)); auto.
  - intros k p Hk. simpl in Hk.
    apply lookup_insert_Some in Hk as [[_ <-]|[_ Hk]]; [done|].
    by apply (Hp k p).
Qed.

Lemma add_comment_consistent db new_comment :
  consistent db ->
  author_live db new_comment ->
  Comment.project_id new_comment = None \/ project_live db new_comment ->
  consistent (add_comment db new_comment).2.
Proof.
  intros [He Ht Hc Hp Ha] Hauthor Hproject.
  split; simpl; [exact He|exact Ht| |exact Hp|exact Ha].
  intros k c Hk. simpl in Hk.
  apply lookup_insert_Some in Hk as [[_ <-]|[_ Hk]]; [done|].
  by apply (Hc k c).
Qed.

Lemma update_project_consistent db id old project db' :
  consistent db ->
  projects db !! id = Some old ->
  Project.author_id project = Project.author_id old ->
  update_project db id project = inr db' -> consistent db'.
Proof.
  intros [He Ht Hc Hp Ha] Hold Hauthor [Hfree ->]%update_project_inv.
  split; simpl; [exact He| | | |exact Ha].
  - intros i j p q Hi Hj Heq. simpl in Hi, Hj.
    apply lookup_insert_Some in Hi as [[<- <-]|[Hi Hpi]];
      apply lookup_insert_Some in Hj as [[<- <-]|[Hj Hpj]]; try done.
    + by destruct (Hfree j q Hpj).
    + by destruct (Hfree i p Hpi).
    + by apply (Ht i j p q).
  - intros k c Hk. destruct (Hc k c Hk) as [Hlive Hproject].
    split; [exact Hlive|]. destruct Hproject as [Hnone|[pid [Hpid Hsome]]]; [by left|].
    right. exists pid. split; [done|]. simpl. apply lookup_insert_is_Some.
    destruct (decide (id = pid)); auto.
  - intros k p Hk. simpl in Hk.
    apply lookup_insert_Some in Hk as [[_ <-]|[_ Hk]]; [|by apply (Hp k p)].
    rewrite Hauthor. by apply (Hp id old).
Qed.

Lemma delete_project_row_consistent db id :
  consistent db -> consistent (delete_project_row db id).
Proof.
  intros [He Ht Hc Hp Ha].
  split; simpl; [exact He| | | |exact Ha].
  - intros i j p q Hi Hj Heq. simpl in Hi, Hj.
    apply lookup_delete_Some in Hi as [_ Hi].
    apply lookup_delete_Some in Hj as [_ Hj]. by apply (Ht i j p q).
  - intros k c Hk. simpl in Hk. rewrite lookup_fmap in Hk.
    destruct (comments db !! k) as [c0|] eqn:Hc0; [|done].
    injection Hk as <-. destruct (Hc k c0 Hc0) as [Hlive Hproject].
    unfold orphan. case_bool_decide as Hparent; simpl.
    + split; [|by left]. destruct Hlive as [a [Hauthor Hsome]]. by exists a.
    + split; [exact Hlive|].
      destruct Hproject as [Hnone|[pid [Hpid Hsome]]]; [by left|].
      right. exists pid. split; [done|]. simpl.
      rewrite lookup_delete_ne; [done|]. congruence.
  - intros k p Hk. simpl in Hk. apply lookup_delete_Some in Hk as [_ Hk].
    by apply (Hp k p).
Qed.

(** The way of a request through [register] up to its commit, and through
    [admin_only] into the view function. *)
Ltac through_register :=
  unfold register;
  destruct (validate_on_submit _ _); [|done];
  destruct (User_query_filter_by_email_first _ _); [done|];
  destruct (security.generate_password_hash _ _ _) as [?|?]; [done|];
  let Hadd := fresh "Hadd" in
  destruct (add_user _ _) as [?|[? ?]] eqn:Hadd; [done|];
  apply add_user_inv in Hadd as (_ & -> & ->).

Ltac through_gate :=
  unfold add_new_project, edit_project, delete_project, admin_only;
  destruct (id_of (current_user _ _)) as [?|?]; [done|];
  case_bool_decide; [done|].

Section application.
Context `{!Werkzeug} `{!FlaskForm RegisterForm.t} `{!FlaskForm LoginForm.t}
  `{!FlaskForm CommentForm.t} `{!FlaskForm CreateProjectForm.t}.

(** [login] reads the store and never writes it. *)
Lemma login_reads_only request db session :
  db_after (login request db session) = db.
Proof.
  unfold login. destruct (validate_on_submit db request); [|done].
  destruct (User_query_filter_by_email_first db _) as [[id row]|]; [|done].
  by destruct (security.check_password_hash _ _) as [e|[]].
Qed.

Lemma dispatch_keeps_consistent r db session :
  consistent db -> consistent (db_after (dispatch r db session)).
Proof.
  intros Hdb. destruct r as [|salt request|request| |project_id request|
    |today request|project_id request|project_id]; simpl; try done.
  - (* register *)
    unfold register. destruct (validate_on_submit db request); [|done].
    destruct (User_query_filter_by_email_first db _); [done|].
    destruct (security.generate_password_hash _ _ _) as [e|h]; [done|].
    destruct (add_user db _) as [e|[id db']] eqn:Hadd; [done|].
    by eapply add_user_consistent.
  - (* login *)
    by rewrite login_reads_only.
  - (* show_project *)
    unfold show_project. destruct (validate_on_submit db request); [|done].
    destruct (current_user db session) as [|id row] eqn:Hu; [done|].
    apply current_user_inv in Hu as [_ Hrow]. simpl.
    apply (add_comment_consistent db); [done| |].
    + exists id. by rewrite Hrow.
    + unfold Project_query_get, project_live. simpl.
      destruct (projects db !! project_id) as [p|] eqn:Hp; simpl; [|by left].
      right. exists project_id. by rewrite Hp.
  - (* add_new_project *)
    unfold add_new_project, admin_only.
    destruct (current_user db session) as [|id row] eqn:Hu; [done|]. simpl.
    case_bool_decide as Hid; [done|].
    destruct (validate_on_submit db request); [|done].
    destruct (add_project db _) as [e|[pid db']] eqn:Hadd; [done|]. simpl.
    apply current_user_inv in Hu as [_ Hrow].
    assert (id = 1) as -> by (destruct (decide (id = 1)); done).
    eapply add_project_consistent; [done| | |exact Hadd]; [done|by eexists].
  - (* edit_project *)
    unfold edit_project. unfold admin_only.
    destruct (id_of (current_user db session)) as [e|id]; [done|].
    case_bool_decide; [done|].
    unfold Project_query_get.
    destruct (projects db !! project_id) as [old|] eqn:Hold; [|done]. simpl.
    destruct (validate_on_submit db request); [|done].
    destruct (update_project db project_id _) as [e|db'] eqn:Hupd; [done|]. simpl.
    eapply (update_project_consistent db project_id old _ db' Hdb Hold);
      [|exact Hupd]. done.
  - (* delete_project *)
    unfold delete_project, admin_only.
    destruct (id_of (current_user db session)) as [e|id]; [done|].
    case_bool_decide; [done|].
    unfold Project_query_get.
    destruct (projects db !! project_id) as [old|]; [|done]. simpl.
    by apply delete_project_row_consistent.
Qed.

(** X1: Every request keeps the store consistent: emails and titles stay
    unique, every comment keeps a stored author and a stored or absent
    parent project, every project stays authored by the stored user 1. *)
Theorem dispatch_consistent r db session :
  consistent db -> consistent (db_after (dispatch r db session)).
Proof. apply dispatch_keeps_consistent. Qed.

(** X2: Every store that the application can reach from empty tables is
    consistent. *)
Theorem reachable_consistent db : reachable db -> consistent db.
Proof.
  induction 1 as [|db session r _ IH]; [apply consistent_empty|].
  by apply dispatch_keeps_consistent.
Qed.

(** X3: Each table has its writers: only [register] touches [users], only
    the three gated routes touch [projects], only [show_project] and
    [delete_project] touch [comments], and only [register], [login] and
    [logout] touch the session.  No request removes or alters a user. *)
Theorem dispatch_frame r db session :
  let result := dispatch r db session in
  (writes_users r = false -> users (db_after result) = users db)
  /\ (writes_projects r = false -> projects (db_after result) = projects db)
  /\ (writes_comments r = false -> comments (db_after result) = comments db)
  /\ (writes_session r = false -> session_after result = session)
  /\ users db ⊆ users (db_after result).
Proof.
  destruct r as [|salt request|request| |project_id request|
    |today request|project_id request|project_id]; simpl;
    repeat split; try done; try (intros _);
    try (by rewrite login_reads_only).
  all: try (through_register; by (simpl; try apply insert_subseteq, next_id_fresh)).
  all: try (unfold show_project; destruct (validate_on_submit db request); [|done];
            by destruct (current_user db session)).
  all: through_gate.
  all: try (destruct (validate_on_submit db request); [|done];
            destruct (current_user db session); [done|];
            by destruct (add_project db _) as [e|[pid db']] eqn:Hadd;
              [|apply add_project_inv in Hadd as (_ & -> & ->)]).
  all: destruct (Project_query_get db project_id) as [[pid old]|]; [|done..].
  all: try done.
  all: destruct (validate_on_submit db request); [|done].
  all: by destruct (update_project db pid _) as [e|db'] eqn:Hupd;
         [|apply update_project_inv in Hupd as [_ ->]].
Qed.

(* ===================================================================== *)
(** * Accounts *)
(* ===================================================================== *)

(** X4: A session authenticates exactly when it carries the id of a stored
    user; a session whose user is not in the store counts as anonymous. *)
Theorem current_user_authenticated_iff db session :
  is_authenticated (current_user db session) = true
  <-> exists id, session = Some id /\ is_Some (users db !! id).
Proof.
  unfold current_user, load_user, User_query_get. split.
  - destruct session as [id|]; [|done].
    destruct (users db !! id) as [row|] eqn:Hrow; [|done].
    intros _. exists id. by rewrite Hrow.
  - intros [id [-> [row Hrow]]]. by rewrite Hrow.
Qed.

Lemma register_new_user salt request db session :
  validate_on_submit db request = true ->
  (forall k u, users db !! k = Some u ->
     User.email u ≠ RegisterForm.email (form request)) ->
  security.is_gen_salt 8 salt = true ->
  register salt request db session
  = mkResult
      (mkDatabase
         (<[next_id (users db) :=
              User.mk (RegisterForm.email (form request))
                (actual_method ++ "$" ++ salt ++ "$"
                 ++ hex (derived_key salt (RegisterForm.password (form request))))
                (RegisterForm.name (form request))]> (users db))
         (projects db) (comments db))
      (Some (next_id (users db))) [] (redirect url_for_get_all_projects).
Proof.
  intros Hvalid Hfree Hsalt. unfold register. rewrite Hvalid.
  rewrite (filter_by_email_first_None _ _ Hfree).
  rewrite (generate_password_hash_pbkdf2 _ _ Hsalt).
  by rewrite add_user_fresh.
Qed.

(** X5: A valid registration with an email that no stored user has creates
    exactly one user, under an id that was free, holding the submitted
    email and name and the PBKDF2 hash of the password under the drawn
    salt; it logs that user in and redirects to the project list. *)
Theorem register_creates_user salt request db session :
  validate_on_submit db request = true ->
  (forall k u, users db !! k = Some u ->
     User.email u ≠ RegisterForm.email (form request)) ->
  security.is_gen_salt 8 salt = true ->
  let f := form request in
  let id := next_id (users db) in
  let new_user :=
    User.mk (RegisterForm.email f)
      (actual_method ++ "$" ++ salt ++ "$"
       ++ hex (derived_key salt (RegisterForm.password f)))
      (RegisterForm.name f) in
  users db !! id = None
  /\ register salt request db session
     = mkResult
         (mkDatabase (<[id := new_user]> (users db)) (projects db) (comments db))
         (Some id) [] (redirect url_for_get_all_projects).
Proof.
  intros Hvalid Hfree Hsalt f id new_user. split; [apply next_id_fresh|].
  by apply register_new_user.
Qed.

(** X6: After a valid registration with a new email, the login form with
    the same email and password logs that user in, whatever session the
    request carries, and writes nothing. *)
Theorem login_after_register salt request login_request db session session' :
  validate_on_submit db request = true ->
  (forall k u, users db !! k = Some u ->
     User.email u ≠ RegisterForm.email (form request)) ->
  security.is_gen_salt 8 salt = true ->
  let db' := db_after (register salt request db session) in
  validate_on_submit db' login_request = true ->
  LoginForm.email (form login_request) = RegisterForm.email (form request) ->
  LoginForm.password (form login_request) = RegisterForm.password (form request) ->
  login login_request db' session'
  = mkResult db' (Some (next_id (users db))) []
      (redirect url_for_get_all_projects).
Proof.
  intros Hvalid Hfree Hsalt db'.
  pose proof (register_new_user salt request db session Hvalid Hfree Hsalt)
    as Hreg.
  subst db'. rewrite Hreg. simpl. intros Hvalid' Hemail Hpassword.
  unfold login. rewrite Hvalid', Hemail, Hpassword.
  rewrite (filter_by_email_first_new db (User.mk _ _ _) Hfree). simpl.
  rewrite (check_password_hash_pbkdf2 _ _ _ Hsalt).
  by rewrite bool_decide_eq_true_2.
Qed.

(** X7: After a valid registration with a new email, the login form with
    the same email and a password that derives another PBKDF2 key is
    turned away: the warning for a wrong password is flashed, and the
    store and the session are as they were. *)
Theorem login_wrong_password_after_register
    salt request login_request db session session' :
  validate_on_submit db request = true ->
  (forall k u, users db !! k = Some u ->
     User.email u ≠ RegisterForm.email (form request)) ->
  security.is_gen_salt 8 salt = true ->
  let db' := db_after (register salt request db session) in
  validate_on_submit db' login_request = true ->
  LoginForm.email (form login_request) = RegisterForm.email (form request) ->
  derived_key salt (LoginForm.password (form login_request))
    ≠ derived_key salt (RegisterForm.password (form request)) ->
  login login_request db' session'
  = mkResult db' session' ["Password incorrect, please try again."]
      (redirect url_for_login).
Proof.
  intros Hvalid Hfree Hsalt db'.
  pose proof (register_new_user salt request db session Hvalid Hfree Hsalt)
    as Hreg.
  subst db'. rewrite Hreg. simpl. intros Hvalid' Hemail Hkey.
  unfold login. rewrite Hvalid', Hemail.
  rewrite (filter_by_email_first_new db (User.mk _ _ _) Hfree). simpl.
  rewrite (check_password_hash_pbkdf2 _ _ _ Hsalt).
  by rewrite bool_decide_eq_false_2.
Qed.

(** X8: A login with an email that no stored user has is turned away with the
    warning for an unknown email; store and session are as they were. *)
Theorem login_unknown_email request db session :
  validate_on_submit db request = true ->
  (forall k u, users db !! k = Some u ->
     User.email u ≠ LoginForm.email (form request)) ->
  login request db session
  = mkResult db session ["That email does not exist, please try again."]
      (redirect url_for_login).
Proof.
  intros Hvalid Hnone. unfold login. rewrite Hvalid.
  by rewrite (filter_by_email_first_None _ _ Hnone).
Qed.

(** X9: [login] never writes the store, and it leaves the session as it was
    unless the store holds a user with the submitted email whose stored
    hash verifies the submitted password; the session then carries that
    user's id. *)
Theorem login_guards_session request db session :
  let result := login request db session in
  db_after result = db
  /\ (session_after result = session
      \/ exists id row,
           session_after result = Some id
           /\ users db !! id = Some row
           /\ User.email row = LoginForm.email (form request)
           /\ security.check_password_hash (User.password row)
                (LoginForm.password (form request)) = inr true).
Proof.
  split; [apply login_reads_only|]. unfold login.
  destruct (validate_on_submit db request); [|by left].
  destruct (User_query_filter_by_email_first db _) as [[id row]|] eqn:Hfind;
    [|by left].
  apply filter_by_email_first_Some in Hfind as [Hrow Heq].
  destruct (security.check_password_hash _ _) as [e|[]] eqn:Hcheck;
    [by left| |by left].
  right. by exists id, row.
Qed.

(** X10: The first user to register on empty tables gets id 1 and passes the
    gate of the administrator routes. *)
Theorem first_registrant_is_admin salt request db session (f : Handler) :
  users db = ∅ ->
  validate_on_submit db request = true ->
  security.is_gen_salt 8 salt = true ->
  let result := register salt request db session in
  session_after result = Some 1
  /\ admin_only f (db_after result) (session_after result)
     = f (db_after result) (session_after result).
Proof.
  intros Hempty Hvalid Hsalt result.
  assert (forall k u, users db !! k = Some u ->
            User.email u ≠ RegisterForm.email (form request)) as Hfree.
  { intros k u Hu. rewrite Hempty in Hu. by rewrite lookup_empty in Hu. }
  pose proof (register_new_user salt request db session Hvalid Hfree Hsalt)
    as Hreg.
  subst result. rewrite Hreg. simpl. rewrite Hempty, next_id_empty.
  split; [done|]. eapply admin_only_admin.
  apply current_user_row. simpl. apply lookup_insert_eq.
Qed.

(** X11: Once user 1 is stored, a user who registers gets another id, and the
    gate of the administrator routes answers that user with 403. *)
Theorem later_registrant_is_forbidden salt request db session (f : Handler) :
  is_Some (users db !! 1) ->
  validate_on_submit db request = true ->
  (forall k u, users db !! k = Some u ->
     User.email u ≠ RegisterForm.email (form request)) ->
  security.is_gen_salt 8 salt = true ->
  let result := register salt request db session in
  admin_only f (db_after result) (session_after result)
  = mkResult (db_after result) (session_after result) [] (abort 403).
Proof.
  intros Hadmin Hvalid Hfree Hsalt result.
  pose proof (register_new_user salt request db session Hvalid Hfree Hsalt)
    as Hreg.
  subst result. rewrite Hreg. simpl.
  eapply admin_only_other.
  - apply current_user_row. simpl. apply lookup_insert_eq.
  - apply next_id_ge in Hadmin. lia.
Qed.

(* ===================================================================== *)
(** * Projects *)
(* ===================================================================== *)

(** X12: The project list shows every stored project once, and nothing else;
    the request writes nothing. *)
Theorem get_all_projects_lists db session :
  exists rows,
    get_all_projects db session
    = mkResult db session []
        (render_template "index.html"
           [arg_all_projects rows; arg_current_user (current_user db session)])
    /\ NoDup rows
    /\ (forall id project,
          (id, project) ∈ rows <-> projects db !! id = Some project).
Proof.
  exists (Project_query_all db). split; [done|]. unfold Project_query_all.
  split; [apply NoDup_map_to_list|]. intros id project.
  apply elem_of_map_to_list.
Qed.

(** X13: Unless the current user is user 1, a request to a gated route leaves
    the store and the session as they were and flashes nothing, whatever
    it submits; a logged-in user is answered with 403, and for a visitor
    who is not logged in the AttributeError of [current_user.id] escapes. *)
Theorem gated_routes_write_nothing today project_id request db session :
  (forall row, current_user db session ≠ user 1 row) ->
  let refusal :=
    mkResult db session []
      (if is_authenticated (current_user db session) then abort 403
       else raise AttributeError) in
  add_new_project today request db session = refusal
  /\ edit_project project_id request db session = refusal
  /\ delete_project project_id db session = refusal.
Proof.
  intros Hother refusal. subst refusal.
  unfold add_new_project, edit_project, delete_project, admin_only; simpl.
  destruct (current_user db session) as [|id row] eqn:Hu; simpl; [done|].
  case_bool_decide as Hid; [done|].
  destruct (Hother row). f_equal. by destruct (decide (id = 1)).
Qed.

(** X14: A valid new-project form of the administrator with a title that no
    stored project has creates exactly one project, under an id that was
    free, with the submitted fields, the date of the day and user 1 as
    author, and redirects to the project list. *)
Theorem add_new_project_creates today request db session admin :
  current_user db session = user 1 admin ->
  validate_on_submit db request = true ->
  (forall k p, projects db !! k = Some p ->
     Project.title p ≠ CreateProjectForm.title (form request)) ->
  let f := form request in
  let id := next_id (projects db) in
  let new_project :=
    Project.mk (Some 1) (CreateProjectForm.title f) (CreateProjectForm.subtitle f)
      today (CreateProjectForm.body f) (CreateProjectForm.img_url f) in
  projects db !! id = None
  /\ add_new_project today request db session
     = mkResult
         (mkDatabase (users db) (<[id := new_project]> (projects db)) (comments db))
         session [] (redirect url_for_get_all_projects).
Proof.
  intros Hu Hvalid Hfree f id new_project. split; [apply next_id_fresh|].
  unfold add_new_project. rewrite (admin_only_admin _ _ _ _ Hu).
  rewrite Hvalid, Hu. by rewrite add_project_fresh.
Qed.

(** X15: The edit page round trip: a GET by the administrator shows the form
    filled with the stored title, subtitle, image URL and body of the
    project and writes nothing; and, when titles are unique in the store,
    a valid submission of the form as it was shown leaves the store as it
    was and redirects to the page of the project. *)
Theorem edit_project_resubmit_unchanged
    project_id request db session admin project :
  current_user db session = user 1 admin ->
  projects db !! project_id = Some project ->
  unique_titles db ->
  http_method request = GET ->
  validate_on_submit db (mkRequest POST (form_of_project project)) = true ->
  edit_project project_id request db session
  = mkResult db session []
      (render_template "make-project.html"
         [arg_form (project_form (form_of_project project)); arg_is_edit true;
          arg_current_user (user 1 admin)])
  /\ edit_project project_id (mkRequest POST (form_of_project project)) db session
     = mkResult db session [] (redirect (url_for_show_project project_id)).
Proof.
  intros Hu Hp Hunique Hget Hvalid.
  unfold edit_project. rewrite !(admin_only_admin _ _ _ _ Hu).
  unfold Project_query_get. rewrite Hp. simpl. rewrite Hvalid. split.
  - unfold validate_on_submit, is_submitted. by rewrite Hget, Hu.
  - unfold update_project. rewrite existsb_map_to_list_none.
    + replace (Project.mk _ _ _ _ _ _) with project by by destruct project.
      by rewrite insert_id, database_eta.
    + intros k p Hk. simpl.
      destruct (Z.eqb_spec k project_id) as [->|Hne]; [done|]. simpl.
      apply String.eqb_neq. intros Heq. apply Hne.
      by apply (Hunique k project_id p project).
Qed.

(** X16: When another stored project holds the submitted title, the
    administrator's valid edit lets the IntegrityError of the commit escape
    and the store is as it was. *)
Theorem edit_project_duplicate_title
    project_id request db session admin project other_id other :
  current_user db session = user 1 admin ->
  projects db !! project_id = Some project ->
  validate_on_submit db request = true ->
  projects db !! other_id = Some other ->
  other_id ≠ project_id ->
  Project.title other = CreateProjectForm.title (form request) ->
  edit_project project_id request db session
  = mkResult db session [] (raise IntegrityError).
Proof.
  intros Hu Hp Hvalid Hother Hne Htitle.
  unfold edit_project. rewrite (admin_only_admin _ _ _ _ Hu).
  unfold Project_query_get. rewrite Hp. simpl. rewrite Hvalid.
  assert (is_submitted request = true) as ->.
  { unfold validate_on_submit in Hvalid. by apply andb_true_iff in Hvalid as [? _]. }
  by rewrite (update_project_taken db project_id _ other_id other).
Qed.

(** X17: The administrator's delete of a stored project removes that project
    and no other, leaves the users alone, and deletes no comment: the
    comments of the project stay in the table without a parent, and every
    other comment is as it was.  The response redirects to the project
    list. *)
Theorem delete_project_removes project_id db session admin project :
  current_user db session = user 1 admin ->
  projects db !! project_id = Some project ->
  let result := delete_project project_id db session in
  let db' := db_after result in
  response result = redirect url_for_get_all_projects
  /\ session_after result = session
  /\ users db' = users db
  /\ projects db' = delete project_id (projects db)
  /\ (forall k, is_Some (comments db' !! k) <-> is_Some (comments db !! k))
  /\ (forall k c, comments db' !! k = Some c ->
        Comment.project_id c ≠ Some project_id)
  /\ (forall k c, comments db !! k = Some c ->
        comments db' !! k
        = Some (if bool_decide (Comment.project_id c = Some project_id)
                then Comment.mk None (Comment.author_id c) (Comment.text c)
                else c)).
Proof.
  intros Hu Hp result db'. subst db' result.
  unfold delete_project. rewrite (admin_only_admin _ _ _ _ Hu).
  unfold Project_query_get. rewrite Hp. simpl.
  do 4 (split; [done|]). split; [|split].
  - intros k. rewrite lookup_fmap. apply fmap_is_Some.
  - intros k c. rewrite lookup_fmap. intros (c0 & _ & ->)%fmap_Some.
    unfold orphan. case_bool_decide as Hparent; [done|exact Hparent].
  - intros k c Hc. by rewrite lookup_fmap, Hc.
Qed.

(** X18: After the administrator deleted a stored project, a GET of the
    page of that project is answered with the rendering of the project
    template for [project=None], and the same delete again lets the
    UnmappedInstanceError escape. *)
Theorem delete_project_twice
    project_id request db session admin project :
  current_user db session = user 1 admin ->
  projects db !! project_id = Some project ->
  http_method request = GET ->
  let result := delete_project project_id db session in
  let db' := db_after result in
  show_project project_id request db' (session_after result)
  = mkResult db' session []
      (render_template "project.html"
         [arg_project None; arg_form (comment_form (form request));
          arg_current_user (user 1 admin)])
  /\ delete_project project_id db' (session_after result)
     = mkResult db' session [] (raise UnmappedInstanceError).
Proof.
  intros Hu Hp Hget result db'. subst db' result.
  assert (delete_project project_id db session
          = mkResult (delete_project_row db project_id) session []
              (redirect url_for_get_all_projects)) as ->.
  { unfold delete_project. rewrite (admin_only_admin _ _ _ _ Hu).
    unfold Project_query_get. by rewrite Hp. }
  simpl.
  assert (current_user (delete_project_row db project_id) session = user 1 admin)
    as Hu' by exact Hu.
  split.
  - unfold show_project, validate_on_submit, is_submitted, Project_query_get.
    rewrite Hget, Hu'. simpl. by rewrite lookup_delete_eq.
  - unfold delete_project. rewrite (admin_only_admin _ _ _ _ Hu').
    unfold Project_query_get. simpl. by rewrite lookup_delete_eq.
Qed.

(** X19: A valid comment submission of a logged-in user adds exactly one row
    to the comments table, under a key that was free, with the current
    user as author, the requested project (or none, when it is not stored)
    as parent and the submitted text; every other row of the store and the
    session are as they were, and the same page is shown again. *)
Theorem show_project_adds_one_comment project_id request db session id row :
  current_user db session = user id row ->
  validate_on_submit db request = true ->
  let result := show_project project_id request db session in
  let db' := db_after result in
  let requested_project := Project_query_get db project_id in
  let new_comment :=
    Comment.mk (fst <$> requested_project) (Some id)
      (CommentForm.comment_text (form request)) in
  users db' = users db /\ projects db' = projects db
  /\ session_after result = session /\ flashed result = []
  /\ comments db ⊆ comments db'
  /\ size (comments db') = S (size (comments db))
  /\ comments db' !! next_id (comments db) = Some new_comment
  /\ response result
     = render_template "project.html"
         [arg_project requested_project; arg_form (comment_form (form request));
          arg_current_user (user id row)].
Proof.
  intros Hu Hvalid result db' requested_project new_comment.
  subst db' result requested_project new_comment.
  unfold show_project. rewrite Hvalid, Hu. simpl.
  pose proof (next_id_fresh (comments db)) as Hfresh.
  do 4 (split; [done|]). split; [by apply insert_subseteq|].
  split; [by apply map_size_insert_None|].
  split; [apply lookup_insert_eq|].
  rewrite <- Hu. reflexivity.
Qed.

(** X20: Requests whose forms are not valid submissions (GETs in particular)
    write nothing and leave the session as it was, on each of the five
    form routes. *)
Theorem unvalidated_requests_write_nothing
    salt today project_id register_request login_request comment_request
    project_request db session :
  validate_on_submit db register_request = false ->
  validate_on_submit db login_request = false ->
  validate_on_submit db comment_request = false ->
  validate_on_submit db project_request = false ->
  let untouched (result : Result) :=
    db_after result = db /\ session_after result = session in
  untouched (register salt register_request db session)
  /\ untouched (login login_request db session)
  /\ untouched (show_project project_id comment_request db session)
  /\ untouched (add_new_project today project_request db session)
  /\ untouched (edit_project project_id project_request db session).
Proof.
  intros Hregister Hlogin Hcomment Hproject untouched. subst untouched.
  split; [|split; [|split; [|split]]].
  - unfold register. by rewrite Hregister.
  - unfold login. by rewrite Hlogin.
  - unfold show_project. by rewrite Hcomment.
  - through_gate. by rewrite Hproject.
  - through_gate.
    destruct (Project_query_get db project_id) as [[pid old]|]; [|done].
    by rewrite Hproject.
Qed.

End application.

(* ===================================================================== *)
(** * The further properties at sample requests *)
(* ===================================================================== *)

Lemma sample_db_users k u :
  users sample_db !! k = Some u ->
  (k = 2 /\ u = guest_row) \/ (k = 1 /\ u = admin_row).
Proof.
  unfold sample_db. simpl. intros Hu.
  apply lookup_insert_Some in Hu as [[<- <-]|[_ Hu]]; [by left|].
  apply lookup_singleton_Some in Hu as [<- <-]. by right.
Qed.

Lemma sample_db_projects k p :
  projects sample_db !! k = Some p -> k = 1 /\ p = project_T1.
Proof.
  unfold sample_db. simpl. intros Hp.
  by apply lookup_singleton_Some in Hp as [<- <-].
Qed.

Lemma sample_db_unique_titles : unique_titles sample_db.
Proof.
  intros i j p q [-> _]%sample_db_projects [-> _]%sample_db_projects _. done.
Qed.

Lemma sample_db_email_free email k u :
  email ≠ "a@x.com" -> email ≠ "admin@x.com" ->
  users sample_db !! k = Some u -> User.email u ≠ email.
Proof.
  intros Hguest Hadmin [[_ ->]|[_ ->]]%sample_db_users; simpl; congruence.
Qed.

Lemma dispatch_consistent_witness :
  consistent
    (db_after (@dispatch one_iteration required_register required_login
                 required_comment required_project
                 (to_register "saltsalt" register_b) empty_db None)).
Proof.
  apply (@dispatch_consistent one_iteration required_register required_login
           required_comment required_project
           (to_register "saltsalt" register_b) empty_db None).
  apply consistent_empty.
Defined.

Lemma reachable_consistent_witness :
  consistent
    (db_after (@dispatch one_iteration required_register required_login
                 required_comment required_project
                 (to_register "saltsalt" register_b) empty_db None)).
Proof.
  apply (@reachable_consistent one_iteration required_register required_login
           required_comment required_project).
  apply reachable_step. apply reachable_empty.
Defined.

Lemma register_creates_user_witness :
  users sample_db !! 3 = None
  /\ session_after (@register one_iteration required_register "saltsalt"
                      register_b sample_db None) = Some 3.
Proof.
  destruct (@register_creates_user one_iteration required_register "saltsalt"
              register_b sample_db None) as [Hfree Hregister].
  - vm_compute. reflexivity.
  - intros k u. by apply sample_db_email_free.
  - vm_compute. reflexivity.
  - split; [exact Hfree|]. rewrite Hregister. vm_compute. reflexivity.
Defined.

Lemma login_after_register_witness :
  let db' := db_after (@register one_iteration required_register "saltsalt"
                         register_b sample_db None) in
  @login one_iteration required_login login_b db' None
  = mkResult db' (Some (next_id (users sample_db))) []
      (redirect url_for_get_all_projects).
Proof.
  apply (@login_after_register one_iteration required_register required_login
           "saltsalt" register_b login_b sample_db None None).
  - vm_compute. reflexivity.
  - intros k u. by apply sample_db_email_free.
  - vm_compute. reflexivity.
  - vm_compute. reflexivity.
  - reflexivity.
  - reflexivity.
Defined.

Lemma login_wrong_password_after_register_witness :
  let db' := db_after (@register one_iteration required_register "saltsalt"
                         register_b sample_db None) in
  @login one_iteration required_login login_b_wrong db' None
  = mkResult db' None ["Password incorrect, please try again."]
      (redirect url_for_login).
Proof.
  apply (@login_wrong_password_after_register one_iteration required_register
           required_login "saltsalt" register_b login_b_wrong sample_db None None).
  - vm_compute. reflexivity.
  - intros k u. by apply sample_db_email_free.
  - vm_compute. reflexivity.
  - vm_compute. reflexivity.
  - reflexivity.
  - vm_compute. discriminate.
Defined.

Lemma login_unknown_email_witness :
  @login one_iteration required_login login_b sample_db None
  = mkResult sample_db None ["That email does not exist, please try again."]
      (redirect url_for_login).
Proof.
  apply (@login_unknown_email one_iteration required_login login_b sample_db None).
  - vm_compute. reflexivity.
  - intros k u. by apply sample_db_email_free.
Defined.

Lemma first_registrant_is_admin_witness :
  let result := @register one_iteration required_register "saltsalt"
                  register_b empty_db None in
  session_after result = Some 1
  /\ admin_only contact (db_after result) (session_after result)
     = contact (db_after result) (session_after result).
Proof.
  apply (@first_registrant_is_admin one_iteration required_register "saltsalt"
           register_b empty_db None contact).
  - reflexivity.
  - vm_compute. reflexivity.
  - vm_compute. reflexivity.
Defined.

Lemma later_registrant_is_forbidden_witness :
  let result := @register one_iteration required_register "saltsalt"
                  register_b sample_db None in
  admin_only contact (db_after result) (session_after result)
  = mkResult (db_after result) (session_after result) [] (abort 403).
Proof.
  apply (@later_registrant_is_forbidden one_iteration required_register
           "saltsalt" register_b sample_db None contact).
  - vm_compute. by eexists.
  - vm_compute. reflexivity.
  - intros k u. by apply sample_db_email_free.
  - vm_compute. reflexivity.
Defined.

Lemma gated_routes_write_nothing_witness :
  @add_new_project required_project "May 02, 2021" second_T1 sample_db (Some 2)
  = mkResult sample_db (Some 2) [] (abort 403)
  /\ @edit_project required_project 1 second_T1 sample_db (Some 2)
     = mkResult sample_db (Some 2) [] (abort 403)
  /\ delete_project 1 sample_db (Some 2)
     = mkResult sample_db (Some 2) [] (abort 403).
Proof.
  apply (@gated_routes_write_nothing required_project "May 02, 2021" 1
           second_T1 sample_db (Some 2)).
  intros row. vm_compute. discriminate.
Defined.

Lemma add_new_project_creates_witness :
  projects sample_db !! 2 = None
  /\ response (@add_new_project required_project "May 02, 2021" retitle_T2
                 sample_db (Some 1)) = redirect url_for_get_all_projects.
Proof.
  destruct (@add_new_project_creates required_project "May 02, 2021" retitle_T2
              sample_db (Some 1) admin_row) as [Hfree Hnew].
  - vm_compute. reflexivity.
  - vm_compute. reflexivity.
  - intros k p [_ ->]%sample_db_projects. discriminate.
  - split; [exact Hfree|]. by rewrite Hnew.
Defined.

Lemma edit_project_resubmit_unchanged_witness :
  @edit_project required_project 1 (mkRequest GET blank_project_form)
    sample_db (Some 1)
  = mkResult sample_db (Some 1) []
      (render_template "make-project.html"
         [arg_form (project_form (form_of_project project_T1)); arg_is_edit true;
          arg_current_user (user 1 admin_row)])
  /\ @edit_project required_project 1
       (mkRequest POST (form_of_project project_T1)) sample_db (Some 1)
     = mkResult sample_db (Some 1) [] (redirect (url_for_show_project 1)).
Proof.
  apply (@edit_project_resubmit_unchanged required_project 1
           (mkRequest GET blank_project_form) sample_db (Some 1) admin_row
           project_T1).
  - vm_compute. reflexivity.
  - vm_compute. reflexivity.
  - apply sample_db_unique_titles.
  - reflexivity.
  - vm_compute. reflexivity.
Defined.

Lemma edit_project_duplicate_title_witness :
  @edit_project required_project 2 second_T1 two_projects_db (Some 1)
  = mkResult two_projects_db (Some 1) [] (raise IntegrityError).
Proof.
  apply (@edit_project_duplicate_title required_project 2 second_T1
           two_projects_db (Some 1) admin_row project_T2 1 project_T1).
  - vm_compute. reflexivity.
  - vm_compute. reflexivity.
  - vm_compute. reflexivity.
  - vm_compute. reflexivity.
  - discriminate.
  - reflexivity.
Defined.

Lemma delete_project_removes_witness :
  let db' := db_after (delete_project 1 commented_db (Some 1)) in
  projects db' = delete 1 (projects commented_db)
  /\ comments db' !! 1 = Some (Comment.mk None (Some 2) "hi").
Proof.
  destruct (@delete_project_removes 1 commented_db (Some 1) admin_row project_T1)
    as (_ & _ & _ & Hprojects & _ & _ & Hcomments).
  - vm_compute. reflexivity.
  - vm_compute. reflexivity.
  - split; [exact Hprojects|].
    apply (Hcomments 1 (Comment.mk (Some 1) (Some 2) "hi")).
    vm_compute. reflexivity.
Defined.

Lemma delete_project_twice_witness :
  let result := delete_project 1 sample_db (Some 1) in
  delete_project 1 (db_after result) (session_after result)
  = mkResult (db_after result) (Some 1) [] (raise UnmappedInstanceError).
Proof.
  destruct (@delete_project_twice required_comment 1
              (mkRequest GET blank_comment_form) sample_db (Some 1) admin_row
              project_T1) as [_ Htwice].
  - vm_compute. reflexivity.
  - vm_compute. reflexivity.
  - reflexivity.
  - exact Htwice.
Defined.

Lemma unvalidated_requests_write_nothing_witness :
  db_after (@register one_iteration required_register "saltsalt"
              (mkRequest GET (RegisterForm.mk "b@x.com" "pw" "B"))
              sample_db (Some 2)) = sample_db
  /\ db_after (@show_project required_comment 1
                 (mkRequest POST blank_comment_form) sample_db (Some 2))
     = sample_db.
Proof.
  destruct (@unvalidated_requests_write_nothing one_iteration required_register
              required_login required_comment required_project
              "saltsalt" "May 02, 2021" 1
              (mkRequest GET (RegisterForm.mk "b@x.com" "pw" "B"))
              (mkRequest GET (LoginForm.mk "b@x.com" "pw"))
              (mkRequest POST blank_comment_form)
              (mkRequest GET blank_project_form)
              sample_db (Some 2))
    as ([Hregister _] & _ & [Hcomment _] & _); try reflexivity.
  by split.
Defined.

Lemma show_project_adds_one_comment_witness :
  comments (db_after (@show_project required_comment 1
                        (mkRequest POST (CommentForm.mk "hi")) sample_db (Some 2)))
    !! 1
  = Some (Comment.mk (Some 1) (Some 2) "hi").
Proof.
  destruct (@show_project_adds_one_comment required_comment 1
              (mkRequest POST (CommentForm.mk "hi")) sample_db (Some 2) 2
              guest_row) as (_ & _ & _ & _ & _ & _ & Hnew & _).
  - vm_compute. reflexivity.
  - vm_compute. reflexivity.
  - exact Hnew.
Defined.
